(** * tg-link: the Telegram message sender

    A shallow embedding of [config.py] (class [TelegramConfig]) and of
    [telegram_sender.py] (class [TelegramSender]: [resolve_username],
    [send_message], [send_bulk_messages], [__init__]) together with the
    properties the specification states about them.

    Python coroutines run here strictly one after the other (the source
    awaits every call before the next statement), so an [await] is a plain
    call in a monad that threads the state of the outside world, records
    every call to an external capability in a trace, and lets a raised
    exception travel up to the nearest handler.  A raised exception keeps
    the state reached so far: what was logged or sent before the [raise]
    stays logged or sent. *)

From Stdlib Require Import List String Ascii ZArith Bool Lia Permutation.
Import ListNotations.

Local Open Scope string_scope.
Local Open Scope Z_scope.
Local Open Scope list_scope.

(** ** Python values used by the source *)

(** [str.lstrip(chars)]: drop the longest prefix made of characters that
    occur in [chars]. *)
Fixpoint mem_ascii (c : ascii) (chars : string) : bool :=
  match chars with
  | EmptyString => false
  | String d rest => if Ascii.eqb c d then true else mem_ascii c rest
  end.

Fixpoint lstrip (chars s : string) : string :=
  match s with
  | EmptyString => EmptyString
  | String c rest => if mem_ascii c chars then lstrip chars rest else s
  end.

(** [', '.join(xs)] and the like. *)
Definition join (sep : string) (xs : list string) : string :=
  String.concat sep xs.

(** Truth value of an [Optional[str]]: [None] and [''] are false. *)
Definition truthy (v : option string) : bool :=
  match v with
  | None => false
  | Some EmptyString => false
  | Some (String _ _) => true
  end.

(** What [client.get_entity] can hand back (telethon.tl.types): only a
    [User] passes [isinstance(entity, User)]. *)
Inductive Entity : Type :=
| User (user_id : Z)
| Chat (chat_id : Z)
| Channel (channel_id : Z).

Definition isinstance_User (entity : Entity) : bool :=
  match entity with
  | User _ => true
  | _ => false
  end.

(** The exception classes the source names, all of them subclasses of
    [Exception]; [OtherError] stands for any other subclass of [Exception],
    with its text.  Interrupts delivered from outside the program
    ([KeyboardInterrupt], task cancellation) are not raised by a capability
    and are not part of this model. *)
Inductive PyException : Type :=
| UsernameNotOccupiedError
| UsernameInvalidError
| FloodWaitError (seconds : Z)
| PeerFloodError
| ValueError (msg : string)
| TypeError (msg : string)
| OtherError (detail : string).

(** ** The observable trace *)

Inductive Level : Type := INFO | WARNING | ERROR.

(** One constructor per format string handed to [logger]; the arguments
    are the values the f-string interpolates. *)
Inductive LogRecord : Type :=
| NotAUserRecord (clean_username : string)
| NotFoundRecord (clean_username : string)
| InvalidRecord (clean_username : string)
| ResolveErrorRecord (clean_username : string) (e : PyException)
| SentRecord (username : string)
| RateLimitedRecord (seconds : Z)
| TooManyRequestsRecord
| SendFailedRecord (username : string) (e : PyException)
| BulkCompleteRecord (n_successful total : nat)
| InitFailedRecord (e : PyException).

Inductive Event : Type :=
| GetEntityCall (name : string)
| SendMessageCall (entity : Entity) (text : string)
| Sleep (delay : Z)
| NewClient (session_name : string) (api_id : Z) (api_hash : option string)
| Log (level : Level) (record : LogRecord).

Definition is_send (ev : Event) : bool :=
  match ev with SendMessageCall _ _ => true | _ => false end.

Definition is_sleep (ev : Event) : bool :=
  match ev with Sleep _ => true | _ => false end.

Definition is_log (ev : Event) : bool :=
  match ev with Log _ _ => true | _ => false end.

(** ** The monad: world state, trace, exceptions *)

Module Py.

Section Monad.
Context {World : Type}.

Record State : Type := mkState { world : World; trace : list Event }.

Definition Outcome (A : Type) : Type := (PyException + A)%type.

Definition M (A : Type) : Type := State -> Outcome A * State.

Definition ret {A} (a : A) : M A := fun st => (inr a, st).

Definition bind {A B} (m : M A) (k : A -> M B) : M B :=
  fun st =>
    match m st with
    | (inr a, st') => k a st'
    | (inl e, st') => (inl e, st')
    end.

Definition raise {A} (e : PyException) : M A := fun st => (inl e, st).

(** [try: body  except ...: handler]: the handler sees the exception and
    the state at the point of the [raise]; a handler for a class it does
    not name re-raises. *)
Definition try_except {A} (body : M A) (handler : PyException -> M A) : M A :=
  fun st =>
    match body st with
    | (inr a, st') => (inr a, st')
    | (inl e, st') => handler e st'
    end.

Definition emit (ev : Event) : M unit :=
  fun st => (inr tt, mkState (world st) (trace st ++ [ev])).

(** A call into an external capability: recorded, then answered by the
    world, which moves on. *)
Definition call {A} (ev : Event) (f : World -> Outcome A * World) : M A :=
  fun st =>
    let (r, w') := f (world st) in
    (r, mkState w' (trace st ++ [ev])).

End Monad.

Arguments State : clear implicits.
Arguments M : clear implicits.

End Py.

Notation "x <- m ;; k" := (Py.bind m (fun x => k))
  (at level 61, m at next level, right associativity).
Notation "m ;;; k" := (Py.bind m (fun _ => k))
  (at level 61, right associativity).

Definition logger {World} (level : Level) (record : LogRecord) : Py.M World unit :=
  Py.emit (Log level record).

(** The least integer that does not convert to a float: the largest
    float is [2^1024 - 2^971], and half that last step above it rounds up. *)
Definition float_limit : Z := 2 ^ 1024 - 2 ^ 970.

(** [asyncio.sleep(delay)] for an [int]: the loop adds the delay to its
    clock, a float, so a delay from [float_limit] on raises
    [OverflowError('int too large to convert to float')]; below it the call
    suspends the caller. *)
Definition asyncio_sleep {World} (delay : Z) : Py.M World unit :=
  if delay <? float_limit
  then Py.emit (Sleep delay)
  else Py.raise (OtherError "int too large to convert to float").

(** ** config.py *)

(** [os.environ] once [load_dotenv()] has run. *)
Definition Environ : Type := string -> option string.

Definition getenv (environ : Environ) (key : string) : option string :=
  environ key.

Definition getenv_default (environ : Environ) (key default : string) : string :=
  match environ key with
  | Some v => v
  | None => default
  end.

Record TelegramConfig : Type := mkConfig {
  api_id : option string;
  api_hash : option string;
  phone_number : option string;
  session_name : string
}.

Definition newline : string := String (ascii_of_nat 10) EmptyString.

Definition missing_message (missing_credentials : list string) : string :=
  ("Missing required credentials: " ++ join ", " missing_credentials ++ newline
   ++ "Please create a .env file based on .env.example and fill in your credentials.")%string.

Section Config.

Context {World : Type}.

(** The builtin [int] on a [str]: the number, or nothing where Python
    raises [ValueError]. *)
Variable int_of_str : string -> option Z.

Definition _validate_credentials (self : TelegramConfig) : Py.M World unit :=
  let missing_credentials : list string := [] in
  let missing_credentials :=
    if negb (truthy (api_id self))
    then missing_credentials ++ ["API_ID"] else missing_credentials in
  let missing_credentials :=
    if negb (truthy (api_hash self))
    then missing_credentials ++ ["API_HASH"] else missing_credentials in
  let missing_credentials :=
    if negb (truthy (phone_number self))
    then missing_credentials ++ ["PHONE_NUMBER"] else missing_credentials in
  match missing_credentials with
  | [] => Py.ret tt
  | _ :: _ => Py.raise (ValueError (missing_message missing_credentials))
  end.

(** [TelegramConfig.__init__] *)
Definition TelegramConfig_init (environ : Environ) : Py.M World TelegramConfig :=
  let self :=
    mkConfig (getenv environ "API_ID") (getenv environ "API_HASH")
             (getenv environ "PHONE_NUMBER")
             (getenv_default environ "SESSION_NAME" "telegram_session") in
  _validate_credentials self ;;;
  Py.ret self.

(** [int(x)] for an [Optional[str]]: [TypeError] on [None], [ValueError]
    on text that is no integer literal. *)
Definition int_ (x : option string) : Py.M World Z :=
  match x with
  | None => Py.raise (TypeError "int() argument must be a string, not 'NoneType'")
  | Some s =>
      match int_of_str s with
      | Some n => Py.ret n
      | None => Py.raise (ValueError "invalid literal for int() with base 10")
      end
  end.

Definition get_api_id (self : TelegramConfig) : Py.M World Z :=
  Py.try_except
    (int_ (api_id self))
    (fun e =>
       match e with
       | ValueError _ | TypeError _ =>
           Py.raise (ValueError "API_ID must be a valid integer")
       | _ => Py.raise e
       end).

Definition get_api_hash (self : TelegramConfig) : option string := api_hash self.

Definition get_phone_number (self : TelegramConfig) : option string :=
  phone_number self.

Definition get_session_name (self : TelegramConfig) : string := session_name self.

End Config.

(** ** telegram_sender.py *)

(** The [results] dictionary of [send_bulk_messages]. *)
Record Results : Type := mkResults {
  successful : list string;
  failed : list string;
  total : nat
}.

Section TelegramSender.

(** The session held by [self.client]: an arbitrary, possibly stateful
    collaborator.  Each capability either returns or raises. *)
Variable World : Type.
Variable int_of_str : string -> option Z.
Variable new_TelegramClient :
  string -> Z -> option string -> World -> Py.Outcome unit * World.
Variable client_get_entity :
  string -> World -> Py.Outcome Entity * World.
Variable client_send_message :
  Entity -> string -> World -> Py.Outcome unit * World.

(** [TelegramSender.__init__]: the arguments of [TelegramClient(...)] are
    evaluated left to right before the constructor runs. *)
Definition TelegramSender_init (environ : Environ) : Py.M World TelegramConfig :=
  Py.try_except
    (config <- TelegramConfig_init environ ;;
     session <- Py.ret (get_session_name config) ;;
     id <- get_api_id int_of_str config ;;
     hash <- Py.ret (get_api_hash config) ;;
     Py.call (NewClient session id hash) (new_TelegramClient session id hash) ;;;
     Py.ret config)
    (fun e =>
       logger ERROR (InitFailedRecord e) ;;;
       Py.raise e).

Definition get_entity (name : string) : Py.M World Entity :=
  Py.call (GetEntityCall name) (client_get_entity name).

Definition client_send (user : Entity) (message : string) : Py.M World unit :=
  Py.call (SendMessageCall user message) (client_send_message user message).

(** Line 67: [clean_username = username.lstrip('@')]. *)
Definition clean_username (username : string) : string :=
  lstrip "@" username.

Definition resolve_username (username : string) : Py.M World (option Entity) :=
  let clean := clean_username username in
  Py.try_except
    (entity <- get_entity clean ;;
     if isinstance_User entity then Py.ret (Some entity)
     else
       logger WARNING (NotAUserRecord clean) ;;;
       Py.ret None)
    (fun e =>
       match e with
       | UsernameNotOccupiedError =>
           logger ERROR (NotFoundRecord clean) ;;; Py.ret None
       | UsernameInvalidError =>
           logger ERROR (InvalidRecord clean) ;;; Py.ret None
       | _ =>
           logger ERROR (ResolveErrorRecord clean e) ;;; Py.ret None
       end).

(** [if not user]: [None] is false, an entity object is true. *)
Definition send_message (username message : string) : Py.M World bool :=
  user <- resolve_username username ;;
  match user with
  | None => Py.ret false
  | Some user =>
      Py.try_except
        (client_send user message ;;;
         logger INFO (SentRecord username) ;;;
         Py.ret true)
        (fun e =>
           match e with
           | FloodWaitError seconds =>
               logger ERROR (RateLimitedRecord seconds) ;;; Py.ret false
           | PeerFloodError =>
               logger ERROR TooManyRequestsRecord ;;; Py.ret false
           | _ =>
               logger ERROR (SendFailedRecord username e) ;;; Py.ret false
           end)
  end.

(** One turn of the [for] loop of [send_bulk_messages]. *)
Definition bulk_step (username message : string) (delay : Z)
    (results : Results) : Py.M World Results :=
  success <- send_message username message ;;
  let results :=
    if (success : bool)
    then mkResults (successful results ++ [username]) (failed results)
                   (total results)
    else mkResults (successful results) (failed results ++ [username])
                   (total results) in
  (if delay >? 0 then asyncio_sleep delay else Py.ret tt) ;;;
  Py.ret results.

(** The [for] loop over the usernames still to come. *)
Fixpoint bulk_loop (usernames : list string) (message : string) (delay : Z)
    (results : Results) : Py.M World Results :=
  match usernames with
  | [] => Py.ret results
  | username :: rest =>
      results <- bulk_step username message delay results ;;
      bulk_loop rest message delay results
  end.

Definition send_bulk_messages (usernames : list string) (message : string)
    (delay : Z) : Py.M World Results :=
  results <- bulk_loop usernames message delay
               (mkResults [] [] (List.length usernames)) ;;
  logger INFO (BulkCompleteRecord (List.length (successful results))
                                  (total results)) ;;;
  Py.ret results.

End TelegramSender.

Arguments TelegramSender_init {World}.
Arguments get_entity {World}.
Arguments client_send {World}.
Arguments resolve_username {World}.
Arguments send_message {World}.
Arguments bulk_step {World}.
Arguments bulk_loop {World}.
Arguments send_bulk_messages {World}.

(** ** The specification's vocabulary *)

(** The Dispatch Outcome taxonomy of the specification's data model.  The
    source declares no such type: [send_message] answers with a [bool]
    and names the kind of failure only in a log record. *)
Inductive DispatchOutcome : Type :=
| Sent
| NotFound
| InvalidHandle
| NotAUser
| RateLimited (wait_seconds : Z)
| Blocked
| OtherFailure (detail : string).

(** The normalisation as the specification words it: remove a single
    leading marker character if present. *)
Definition strip_single_marker (handle : string) : string :=
  match handle with
  | String c rest => if Ascii.eqb c "@" then rest else handle
  | EmptyString => EmptyString
  end.

(** [l] dealt out into [l1] and [l2]: every element of [l] goes to exactly
    one of the two, and both keep the order of [l]. *)
Inductive Partitioned {A : Type} : list A -> list A -> list A -> Prop :=
| Partitioned_nil : Partitioned [] [] []
| Partitioned_left x l l1 l2 :
    Partitioned l l1 l2 -> Partitioned (x :: l) (x :: l1) l2
| Partitioned_right x l l1 l2 :
    Partitioned l l1 l2 -> Partitioned (x :: l) l1 (x :: l2).

(** The events one turn of the batch loop adds after its send attempt. *)
Definition pause (delay : Z) : list Event :=
  if delay >? 0 then [Sleep delay] else [].

Definition is_lookup (ev : Event) : bool :=
  match ev with GetEntityCall _ => true | _ => false end.

(** The events of one attempt on [username]: the lookup of its cleaned
    name first, then neither another lookup nor a suspension. *)
Definition attempt_on (username : string) (segment : list Event) : Prop :=
  exists tail,
    segment = GetEntityCall (clean_username username) :: tail /\
    filter is_lookup tail = [] /\ filter is_sleep tail = [].

(** The events of one attempt on [username] with [message]: the lookup
    of its cleaned name, no other lookup, and at most one send, of
    [message]. *)
Definition one_attempt (message username : string) (segment : list Event) :
    Prop :=
  exists tail,
    segment = GetEntityCall (clean_username username) :: tail
    /\ filter is_lookup tail = []
    /\ (filter is_send tail = []
        \/ exists user, filter is_send tail = [SendMessageCall user message]).

(** [n] marker characters in a row. *)
Fixpoint markers (n : nat) : string :=
  match n with
  | O => EmptyString
  | S n => String "@" (markers n)
  end.

Definition required_credentials : list string :=
  ["API_ID"; "API_HASH"; "PHONE_NUMBER"].

(** ** The command line: its events and its monad *)

(** The account [client.get_me()] hands back, with the attributes that
    [connect] reads. *)
Record Me : Type := mkMe {
  first_name : option string;
  last_name : option string;
  me_username : option string
}.

(** [x or default] for an [Optional[str]]. *)
Definition or_default (x : option string) (default : string) : string :=
  match x with
  | Some (String c rest) => String c rest
  | _ => default
  end.

(** The records that [connect], [disconnect], [main] and the entry point
    hand to [logger]. *)
Inductive HostRecord : Type :=
| ConnectedRecord
| LoggedInRecord (first : option string) (last username : string)
| ConnectFailedRecord (e : PyException)
| DisconnectedRecord
| InitializeFailedRecord (e : PyException)
| UnexpectedErrorRecord (e : PyException).

Inductive Prompt : Type := UsernamePrompt | MessagePrompt.

(** One constructor per [print] of the source. *)
Inductive Printed : Type :=
| InteractiveBanner
| QuitHint
| EnterValidUsername
| EnterAMessage
| SendingTo (clean : string)
| SentNotice
| FailedNotice
| ExitingNotice
| ErrorNotice (e : PyException)
| MessageRequiredForBulk
| NoUsernamesFound
| SendingToUsers (n : nat)
| ResultsHeader
| SuccessfulCount (n : nat)
| FailedCount (n : nat)
| FailedUsernames (joined : string)
| FileNotFoundNotice (path : string)
| Help.

Inductive HostEvent : Type :=
| Core (ev : Event)
| StartCall (phone : option string)
| GetMeCall
| DisconnectCall
| InputCall (prompt : Prompt)
| OpenCall (path : string)
| HostLog (level : Level) (record : HostRecord)
| Print (line : Printed).

(** What [input(prompt)] does: a line, an exception such as [EOFError],
    or the interrupt key. *)
Inductive Typed : Type :=
| Line (text : string)
| InputRaises (e : PyException)
| KeyboardInterrupt.

(** What opening and reading the file of usernames does. *)
Inductive Opened : Type :=
| Lines (lines : list string)
| FileNotFoundError
| OpenRaises (e : PyException).

(** [argparse]'s namespace for this program. *)
Record Args : Type := mkArgs {
  arg_username : option string;
  arg_message : option string;
  arg_interactive : bool;
  arg_bulk : option string;
  arg_delay : Z
}.

(** What [parser.parse_args()] makes of the command line: the namespace,
    or [SystemExit] with the code of [argparse] (2 for a command line it
    rejects, 0 once it has printed the help). *)
Inductive Parse : Type :=
| Parsed (args : Args)
| ParserExit (code : Z).

Inductive Flow : Type := Break | Continue.

Definition is_core (ev : HostEvent) : bool :=
  match ev with Core _ => true | _ => false end.

Definition is_disconnect (ev : HostEvent) : bool :=
  match ev with DisconnectCall => true | _ => false end.

Definition is_open (ev : HostEvent) : bool :=
  match ev with OpenCall _ => true | _ => false end.

Definition nonempty (s : string) : bool :=
  match s with
  | EmptyString => false
  | String _ _ => true
  end.

Definition text_of (x : option string) : string :=
  match x with
  | Some s => s
  | None => EmptyString
  end.

Module Host.

Section Monad.
Context {World : Type}.

Record State : Type := mkState { world : World; trace : list HostEvent }.

Definition M (A : Type) : Type := State -> Py.Outcome A * State.

Definition ret {A} (a : A) : M A := fun st => (inr a, st).

Definition bind {A B} (m : M A) (k : A -> M B) : M B :=
  fun st =>
    match m st with
    | (inr a, st') => k a st'
    | (inl e, st') => (inl e, st')
    end.

Definition raise {A} (e : PyException) : M A := fun st => (inl e, st).

Definition try_except {A} (body : M A) (handler : PyException -> M A) : M A :=
  fun st =>
    match body st with
    | (inr a, st') => (inr a, st')
    | (inl e, st') => handler e st'
    end.

(** [try: body  finally: final], for a body whose value is [None] when it
    never ends: [final] runs after a body that returned or raised, and an
    exception of [final] replaces what the body gave. *)
Definition try_finally {A} (body : M (option A)) (final : M unit) : M (option A) :=
  fun st =>
    match body st with
    | (inr None, st') => (inr None, st')
    | (r, st') =>
        match final st' with
        | (inr _, st'') => (r, st'')
        | (inl e, st'') => (inl e, st'')
        end
    end.

Definition emit (ev : HostEvent) : M unit :=
  fun st => (inr tt, mkState (world st) (trace st ++ [ev])).

Definition call {A} (ev : HostEvent) (f : World -> A * World) : M A :=
  fun st =>
    let (a, w') := f (world st) in
    (inr a, mkState w' (trace st ++ [ev])).

(** A capability that returns or raises. *)
Definition call_raising {A} (ev : HostEvent)
    (f : World -> Py.Outcome A * World) : M A :=
  fun st =>
    let (r, w') := f (world st) in
    (r, mkState w' (trace st ++ [ev])).

(** A method of the sender run from the command line: its events join the
    trace in their order. *)
Definition lift {A} (m : Py.M World A) : M A :=
  fun st =>
    let (r, st') := m (Py.mkState (world st) []) in
    (r, mkState (Py.world st') (trace st ++ map Core (Py.trace st'))).

End Monad.

Arguments State : clear implicits.
Arguments M : clear implicits.

End Host.

Notation "x <-- m ;; k" := (Host.bind m (fun x => k))
  (at level 61, m at next level, right associativity).
Notation "m ;;- k" := (Host.bind m (fun _ => k))
  (at level 61, right associativity).

Definition host_logger {World} (level : Level) (record : HostRecord) :
    Host.M World unit :=
  Host.emit (HostLog level record).

Definition print {World} (line : Printed) : Host.M World unit :=
  Host.emit (Print line).

Section CommandLine.

Variable World : Type.
Variable int_of_str : string -> option Z.
Variable new_TelegramClient :
  string -> Z -> option string -> World -> Py.Outcome unit * World.
Variable client_get_entity :
  string -> World -> Py.Outcome Entity * World.
Variable client_send_message :
  Entity -> string -> World -> Py.Outcome unit * World.
Variable client_start : option string -> World -> Py.Outcome unit * World.
Variable client_get_me : World -> Py.Outcome (option Me) * World.
Variable client_disconnect : World -> Py.Outcome unit * World.
Variable console_input : Prompt -> World -> Typed * World.
Variable open_lines : string -> World -> Opened * World.

(** The builtins [str.strip()] and [str.lower()]. *)
Variable strip : string -> string.
Variable lower : string -> string.

(** [TelegramSender.connect]; reading [me.first_name] of [None] raises
    [AttributeError]. *)
Definition connect (config : TelegramConfig) : Host.M World unit :=
  Host.try_except
    (Host.call_raising (StartCall (get_phone_number config))
                       (client_start (get_phone_number config)) ;;-
     host_logger INFO ConnectedRecord ;;-
     me <-- Host.call_raising GetMeCall client_get_me ;;
     match me with
     | Some me =>
         host_logger INFO
           (LoggedInRecord (first_name me) (or_default (last_name me) "")
                           (or_default (me_username me) "no username"))
     | None =>
         Host.raise (OtherError "'NoneType' object has no attribute 'first_name'")
     end)
    (fun e =>
       host_logger ERROR (ConnectFailedRecord e) ;;-
       Host.raise e).

(** [TelegramSender.disconnect] *)
Definition disconnect : Host.M World unit :=
  Host.call_raising DisconnectCall client_disconnect ;;-
  host_logger INFO DisconnectedRecord.

(** [input(prompt)] inside the [try] of the interactive loop: a line goes
    on, the interrupt key ends the loop, an exception is printed and the
    loop goes round. *)
Definition with_input (prompt : Prompt) (k : string -> Host.M World Flow) :
    Host.M World Flow :=
  typed <-- Host.call (InputCall prompt) (console_input prompt) ;;
  match typed with
  | Line text => k text
  | KeyboardInterrupt => print ExitingNotice ;;- Host.ret Break
  | InputRaises e => print (ErrorNotice e) ;;- Host.ret Continue
  end.

(** One turn of the [while True] of [interactive_mode]. *)
Definition interactive_turn : Host.M World Flow :=
  with_input UsernamePrompt (fun typed =>
    let username := strip typed in
    if String.eqb (lower username) "quit" || String.eqb (lower username) "exit"
    then Host.ret Break
    else if negb (nonempty username)
    then print EnterValidUsername ;;- Host.ret Continue
    else
      with_input MessagePrompt (fun typed =>
        let message := strip typed in
        if negb (nonempty message)
        then print EnterAMessage ;;- Host.ret Continue
        else
          print (SendingTo (lstrip "@" username)) ;;-
          Host.try_except
            (success <-- Host.lift (send_message client_get_entity
                                      client_send_message username message) ;;
             (if (success : bool) then print SentNotice else print FailedNotice) ;;-
             Host.ret Continue)
            (fun e => print (ErrorNotice e) ;;- Host.ret Continue))).

(** The loop, for at most [fuel] turns: [None] when they do not end it. *)
Fixpoint interactive_loop (fuel : nat) : Host.M World (option unit) :=
  match fuel with
  | O => Host.ret None
  | S fuel =>
      flow <-- interactive_turn ;;
      match flow with
      | Break => Host.ret (Some tt)
      | Continue => interactive_loop fuel
      end
  end.

Definition interactive_mode (fuel : nat) : Host.M World (option unit) :=
  print InteractiveBanner ;;-
  print QuitHint ;;-
  interactive_loop fuel.

(** The usernames of the bulk file: the stripped lines that are not
    empty. *)
Definition usernames_of (lines : list string) : list string :=
  map strip (filter (fun line => nonempty (strip line)) lines).

(** The [elif args.bulk] branch of [main]. *)
Definition bulk_mode (args : Args) : Host.M World (option Z) :=
  if negb (truthy (arg_message args))
  then print MessageRequiredForBulk ;;- Host.ret (Some 1)
  else
    let path := text_of (arg_bulk args) in
    opened <-- Host.call (OpenCall path) (open_lines path) ;;
    match opened with
    | FileNotFoundError => print (FileNotFoundNotice path) ;;- Host.ret (Some 1)
    | OpenRaises e => Host.raise e
    | Lines lines =>
        let usernames := usernames_of lines in
        match usernames with
        | [] => print NoUsernamesFound ;;- Host.ret (Some 1)
        | _ :: _ =>
            print (SendingToUsers (List.length usernames)) ;;-
            results <-- Host.lift (send_bulk_messages client_get_entity
                                     client_send_message usernames
                                     (text_of (arg_message args))
                                     (arg_delay args)) ;;
            print ResultsHeader ;;-
            print (SuccessfulCount (List.length (successful results))) ;;-
            print (FailedCount (List.length (failed results))) ;;-
            match failed results with
            | [] => Host.ret tt
            | _ :: _ => print (FailedUsernames (join ", " (failed results)))
            end ;;-
            Host.ret (Some 0)
        end
    end.

(** The [elif args.username and args.message] branch. *)
Definition single_mode (args : Args) : Host.M World (option Z) :=
  let username := text_of (arg_username args) in
  print (SendingTo (lstrip "@" username)) ;;-
  success <-- Host.lift (send_message client_get_entity client_send_message
                           username (text_of (arg_message args))) ;;
  if (success : bool)
  then print SentNotice ;;- Host.ret (Some 0)
  else print FailedNotice ;;- Host.ret (Some 1).

(** The body of the second [try] of [main]; the value is the exit code,
    [0] where the source falls through to [return 0]. *)
Definition dispatch (fuel : nat) (args : Args) : Host.M World (option Z) :=
  if arg_interactive args
  then
    ended <-- interactive_mode fuel ;;
    match ended with
    | Some _ => Host.ret (Some 0)
    | None => Host.ret None
    end
  else if truthy (arg_bulk args) then bulk_mode args
  else if truthy (arg_username args) && truthy (arg_message args)
  then single_mode args
  else print Help ;;- Host.ret (Some 1).

(** [main], from the parsed arguments on; [None] when the interactive
    loop does not end within [fuel] turns. *)
Definition main (fuel : nat) (environ : Environ) (args : Args) :
    Host.M World (option Z) :=
  sender <--
    Host.try_except
      (config <-- Host.lift (TelegramSender_init int_of_str new_TelegramClient
                               environ) ;;
       connect config ;;-
       Host.ret (Some config))
      (fun e =>
         host_logger ERROR (InitializeFailedRecord e) ;;-
         Host.ret None) ;;
  match sender with
  | None => Host.ret (Some 1)
  | Some _ => Host.try_finally (dispatch fuel args) disconnect
  end.

(** The entry point, for a command line that [parse_args] accepted: the
    exit code of the process, [1] with a log record when [main] raises.
    Its branch for an interrupt that comes out of [main] is left out: here
    the interrupt key reaches the program through [input] only, and
    [interactive_mode] handles it there. *)
Definition entry_point (fuel : nat) (environ : Environ) (args : Args) :
    Host.M World (option Z) :=
  Host.try_except
    (main fuel environ args)
    (fun e =>
       host_logger ERROR (UnexpectedErrorRecord e) ;;-
       Host.ret (Some 1)).

(** The program from its command line on: [main] calls [parse_args]
    before anything else (line 190), and [SystemExit] passes every handler
    of the program, so an exit of the parser is the exit of the process;
    with a namespace the entry point goes on as above. *)
Definition program (fuel : nat) (environ : Environ) (parse : Parse) :
    Host.M World (option Z) :=
  match parse with
  | ParserExit code => Host.ret (Some code)
  | Parsed args => entry_point fuel environ args
  end.

End CommandLine.

Arguments connect {World}.
Arguments disconnect {World}.
Arguments with_input {World}.
Arguments interactive_turn {World}.
Arguments interactive_loop {World}.
Arguments interactive_mode {World}.
Arguments bulk_mode {World}.
Arguments single_mode {World}.
Arguments dispatch {World}.
Arguments main {World}.
Arguments entry_point {World}.
Arguments program {World}.

(** A command-line computation that adds only events that pass [allowed]. *)
Definition adds_only {World A : Type} (allowed : HostEvent -> bool)
    (m : Host.M World A) : Prop :=
  forall st : Host.State World,
  exists events,
    Host.trace (snd (m st)) = Host.trace st ++ events
    /\ forallb allowed events = true.

Definition not_disconnect (ev : HostEvent) : bool := negb (is_disconnect ev).

Definition not_core (ev : HostEvent) : bool := negb (is_core ev).

Definition is_input (ev : HostEvent) : bool :=
  match ev with InputCall _ => true | _ => false end.

(** A computation that only adds to the trace: run from any trace, it
    does what it does from the empty one, with its events put behind. *)
Definition appends_only {World A : Type} (m : Py.M World A) : Prop :=
  forall (w : World) (t : list Event),
    m (Py.mkState w t)
    = (let (r, st') := m (Py.mkState w []) in
       (r, Py.mkState (Py.world st') (t ++ Py.trace st'))).

(** ** A stub session for concrete runs *)

Module Stub.

(** The world counts the messages delivered so far. *)
Definition World : Type := nat.

Definition start : Py.State World := Py.mkState 0%nat [].

(** A directory with two people, a channel, a malformed name and a name
    whose lookup times out; every other name is unoccupied. *)
Definition lookup (name : string) (w : World) : Py.Outcome Entity * World :=
  (if String.eqb name "alice" then inr (User 1)
   else if String.eqb name "bob" then inr (User 2)
   else if String.eqb name "news" then inr (Channel 3)
   else if String.eqb name "bad name" then inl UsernameInvalidError
   else if String.eqb name "slow" then inl (OtherError "timeout")
   else inl UsernameNotOccupiedError, w).

(** The platform accepts [limit] messages, then demands [wait] seconds;
    user 2 has blocked the account. *)
Definition deliver (limit : nat) (wait : Z) (user : Entity) (text : string)
    (w : World) : Py.Outcome unit * World :=
  if (limit <=? w)%nat then (inl (FloodWaitError wait), w)
  else match user with
       | User 2 => (inl PeerFloodError, w)
       | _ => (inr tt, S w)
       end.

(** A directory that knows only ["b"]. *)
Definition lookup_b (name : string) (w : World) : Py.Outcome Entity * World :=
  (if String.eqb name "b" then inr (User 7) else inl UsernameNotOccupiedError, w).

Definition new_client (session : string) (id : Z) (hash : option string)
    (w : World) : Py.Outcome unit * World := (inr tt, w).

(** Unsigned decimal numerals, standing in for the builtin [int]. *)
Definition digit_of (c : ascii) : option Z :=
  let n := Z.of_nat (nat_of_ascii c) in
  if (48 <=? n) && (n <=? 57) then Some (n - 48) else None.

Fixpoint digits (acc : Z) (s : string) : option Z :=
  match s with
  | EmptyString => Some acc
  | String c rest =>
      match digit_of c with
      | Some d => digits (acc * 10 + d) rest
      | None => None
      end
  end.

Definition int_of_str (s : string) : option Z :=
  match s with
  | EmptyString => None
  | String _ _ => digits 0 s
  end.

Definition environ_of (id hash phone : option string) : Environ :=
  fun key =>
    if String.eqb key "API_ID" then id
    else if String.eqb key "API_HASH" then hash
    else if String.eqb key "PHONE_NUMBER" then phone
    else None.

End Stub.

(** ** A stub command line for concrete runs *)

Module StubHost.

(** The messages delivered so far and what will be typed. *)
Record World : Type := mkWorld { delivered : nat; keyboard : list Typed }.

Definition on_session {A : Type} (f : Stub.World -> A * Stub.World)
    (w : World) : A * World :=
  let (a, n) := f (delivered w) in (a, mkWorld n (keyboard w)).

Definition lookup (name : string) := on_session (Stub.lookup name).

Definition deliver (limit : nat) (wait : Z) (user : Entity) (text : string) :=
  on_session (Stub.deliver limit wait user text).

Definition new_client (session : string) (id : Z) (hash : option string) :=
  on_session (Stub.new_client session id hash).

Definition start_ok (phone : option string) (w : World) :
    Py.Outcome unit * World := (inr tt, w).

Definition start_refused (phone : option string) (w : World) :
    Py.Outcome unit * World := (inl (OtherError "connection refused"), w).

Definition get_me (w : World) : Py.Outcome (option Me) * World :=
  (inr (Some (mkMe (Some "Ann") None (Some "ann"))), w).

Definition disconnect_ok (w : World) : Py.Outcome unit * World := (inr tt, w).

Definition disconnect_lost (w : World) : Py.Outcome unit * World :=
  (inl (OtherError "connection lost"), w).

(** The keyboard hands over what was typed, then it is at its end. *)
Definition input (prompt : Prompt) (w : World) : Typed * World :=
  match keyboard w with
  | [] => (InputRaises (OtherError "EOF when reading a line"), w)
  | typed :: rest => (typed, mkWorld (delivered w) rest)
  end.

Definition users_file : list string :=
  [("alice" ++ newline)%string; newline; (" @ghost " ++ newline)%string].

Definition open_lines (path : string) (w : World) : Opened * World :=
  (if String.eqb path "users.txt" then Lines users_file
   else if String.eqb path "blank.txt" then Lines [newline; (" " ++ newline)%string]
   else FileNotFoundError, w).

(** [strip] and [lower] on ASCII text. *)
Definition whitespace : string :=
  String " " (String (ascii_of_nat 9) (String (ascii_of_nat 10)
    (String (ascii_of_nat 11) (String (ascii_of_nat 12)
      (String (ascii_of_nat 13) EmptyString))))).

Definition reversed (s : string) : string :=
  string_of_list_ascii (rev (list_ascii_of_string s)).

Definition strip (s : string) : string :=
  reversed (lstrip whitespace (reversed (lstrip whitespace s))).

Definition lower_ascii (c : ascii) : ascii :=
  let n := nat_of_ascii c in
  if ((65 <=? n) && (n <=? 90))%nat then ascii_of_nat (n + 32) else c.

Fixpoint lower (s : string) : string :=
  match s with
  | EmptyString => EmptyString
  | String c rest => String (lower_ascii c) (lower rest)
  end.

Definition environ : Environ :=
  Stub.environ_of (Some "12345") (Some "abcdef") (Some "+100").

Definition config : TelegramConfig :=
  mkConfig (Some "12345") (Some "abcdef") (Some "+100") "telegram_session".

Definition boot (typed : list Typed) : Host.State World :=
  Host.mkState (mkWorld 0 typed) [].

(** The events of a start-up that succeeds. *)
Definition started : list HostEvent :=
  [ Core (NewClient "telegram_session" 12345 (Some "abcdef"));
    StartCall (Some "+100");
    HostLog INFO ConnectedRecord;
    GetMeCall;
    HostLog INFO (LoggedInRecord (Some "Ann") "" "ann") ].

(** The states after the sender is built and after it is connected. *)
Definition built (typed : list Typed) : Host.State World :=
  Host.mkState (mkWorld 0 typed)
    [Core (NewClient "telegram_session" 12345 (Some "abcdef"))].

Definition connected (typed : list Typed) : Host.State World :=
  Host.mkState (mkWorld 0 typed) started.

(** A keyboard at its end from the start. *)
Definition dead_input (prompt : Prompt) (w : World) : Typed * World :=
  (InputRaises (OtherError "EOF when reading a line"), w).

End StubHost.

(** ** Proof automation *)

Ltac py_unfold :=
  unfold send_bulk_messages, bulk_step, send_message, resolve_username,
    get_entity, client_send, logger, asyncio_sleep,
    Py.try_except, Py.bind, Py.call, Py.emit, Py.ret, Py.raise in *.

Ltac py_run := py_unfold; simpl in *.

(** ** Concrete runs *)

(** The specification's example: handles a, b, c, no delay, a session that
    succeeds only for b. *)
Example bulk_only_b :
  fst (send_bulk_messages Stub.lookup_b (Stub.deliver 10 30) ["a"; "b"; "c"] "hi" 0
         Stub.start)
  = inr (mkResults ["b"] ["a"; "c"] 3).
Proof. reflexivity. Qed.

Example bulk_only_b_trace :
  Py.trace (snd (send_bulk_messages Stub.lookup_b (Stub.deliver 10 30)
                   ["a"; "@b"] "hi" 2 Stub.start))
  = [ GetEntityCall "a"; Log ERROR (NotFoundRecord "a"); Sleep 2;
      GetEntityCall "b"; SendMessageCall (User 7) "hi";
      Log INFO (SentRecord "@b"); Sleep 2;
      Log INFO (BulkCompleteRecord 1 2) ].
Proof. reflexivity. Qed.

Example send_to_channel :
  send_message Stub.lookup (Stub.deliver 10 30) "@news" "hi" Stub.start
  = (inr false,
     Py.mkState 0%nat [GetEntityCall "news"; Log WARNING (NotAUserRecord "news")]).
Proof. reflexivity. Qed.

Example send_when_blocked :
  send_message Stub.lookup (Stub.deliver 10 30) "bob" "hi" Stub.start
  = (inr false,
     Py.mkState 0%nat [GetEntityCall "bob"; SendMessageCall (User 2) "hi";
                       Log ERROR TooManyRequestsRecord]).
Proof. reflexivity. Qed.

Example init_ok :
  TelegramSender_init Stub.int_of_str Stub.new_client
    (Stub.environ_of (Some "12345") (Some "abcdef") (Some "+100")) Stub.start
  = (inr (mkConfig (Some "12345") (Some "abcdef") (Some "+100") "telegram_session"),
     Py.mkState 0%nat [NewClient "telegram_session" 12345 (Some "abcdef")]).
Proof. reflexivity. Qed.

Example init_missing_two :
  fst (TelegramSender_init Stub.int_of_str Stub.new_client
         (Stub.environ_of (Some "12345") None (Some "")) Stub.start)
  = inl (ValueError (missing_message ["API_HASH"; "PHONE_NUMBER"])).
Proof. reflexivity. Qed.

Example main_single_run :
  main Stub.int_of_str StubHost.new_client StubHost.lookup
    (StubHost.deliver 10 30) StubHost.start_ok StubHost.get_me
    StubHost.disconnect_ok StubHost.input StubHost.open_lines
    StubHost.strip StubHost.lower 5 StubHost.environ
    (mkArgs (Some "@alice") (Some "hi") false None 1) (StubHost.boot [])
  = (inr (Some 0),
     Host.mkState (StubHost.mkWorld 1 [])
       (StubHost.started
        ++ [ Print (SendingTo "alice");
             Core (GetEntityCall "alice");
             Core (SendMessageCall (User 1) "hi");
             Core (Log INFO (SentRecord "@alice"));
             Print SentNotice;
             DisconnectCall;
             HostLog INFO DisconnectedRecord ])).
Proof. reflexivity. Qed.

Example main_bulk_run :
  main Stub.int_of_str StubHost.new_client StubHost.lookup
    (StubHost.deliver 10 30) StubHost.start_ok StubHost.get_me
    StubHost.disconnect_ok StubHost.input StubHost.open_lines
    StubHost.strip StubHost.lower 5 StubHost.environ
    (mkArgs (Some "anyone") (Some "hi") false (Some "users.txt") 0)
    (StubHost.boot [])
  = (inr (Some 0),
     Host.mkState (StubHost.mkWorld 1 [])
       (StubHost.started
        ++ [ OpenCall "users.txt";
             Print (SendingToUsers 2);
             Core (GetEntityCall "alice");
             Core (SendMessageCall (User 1) "hi");
             Core (Log INFO (SentRecord "alice"));
             Core (GetEntityCall "ghost");
             Core (Log ERROR (NotFoundRecord "ghost"));
             Core (Log INFO (BulkCompleteRecord 1 2));
             Print ResultsHeader;
             Print (SuccessfulCount 1);
             Print (FailedCount 1);
             Print (FailedUsernames "@ghost");
             DisconnectCall;
             HostLog INFO DisconnectedRecord ])).
Proof. reflexivity. Qed.

Example main_interactive_run :
  main Stub.int_of_str StubHost.new_client StubHost.lookup
    (StubHost.deliver 10 30) StubHost.start_ok StubHost.get_me
    StubHost.disconnect_ok StubHost.input StubHost.open_lines
    StubHost.strip StubHost.lower 5 StubHost.environ
    (mkArgs None None true None 1)
    (StubHost.boot [Line " "; Line "bob"; Line "hi "; Line " QUIT"])
  = (inr (Some 0),
     Host.mkState (StubHost.mkWorld 0 [])
       (StubHost.started
        ++ [ Print InteractiveBanner; Print QuitHint;
             InputCall UsernamePrompt; Print EnterValidUsername;
             InputCall UsernamePrompt; InputCall MessagePrompt;
             Print (SendingTo "bob");
             Core (GetEntityCall "bob");
             Core (SendMessageCall (User 2) "hi");
             Core (Log ERROR TooManyRequestsRecord);
             Print FailedNotice;
             InputCall UsernamePrompt;
             DisconnectCall;
             HostLog INFO DisconnectedRecord ])).
Proof. reflexivity. Qed.

(** ** Normalisation of a handle *)

Lemma clean_username_marker (h : string) :
  clean_username (String "@" h) = clean_username h.
Proof. reflexivity. Qed.

Lemma clean_username_other (c : ascii) (h : string) :
  Ascii.eqb c "@" = false -> clean_username (String c h) = String c h.
Proof.
  intros Hc. unfold clean_username. simpl. now rewrite Hc.
Qed.

Lemma clean_username_decompose (username : string) :
  exists n, username = (markers n ++ clean_username username)%string.
Proof.
  induction username as [|c rest [n IH]].
  - now exists O.
  - destruct (Ascii.eqb c "@") eqn:Hc.
    + apply Ascii.eqb_eq in Hc. subst c. exists (S n).
      rewrite clean_username_marker. simpl. now rewrite <- IH.
    + exists O. now rewrite clean_username_other.
Qed.

Lemma clean_username_no_marker (username rest : string) :
  clean_username username <> String "@" rest.
Proof.
  induction username as [|c tl IH]; [discriminate|].
  destruct (Ascii.eqb c "@") eqn:Hc.
  - apply Ascii.eqb_eq in Hc. subst c. now rewrite clean_username_marker.
  - rewrite clean_username_other by assumption. intros H.
    injection H as H _. subst c. discriminate.
Qed.

(** ** Single attempts *)

Section Attempts.

Context {World : Type}.
Variable ge : string -> World -> Py.Outcome Entity * World.
Variable sm : Entity -> string -> World -> Py.Outcome unit * World.

(** What [resolve_username] does, by the answer of the lookup. *)
Lemma resolve_username_run (username : string) (st : Py.State World) :
  let clean := clean_username username in
  exists out recs,
    resolve_username ge username st
    = (inr out,
       Py.mkState (snd (ge clean (Py.world st)))
                  (Py.trace st ++ GetEntityCall clean :: recs))
    /\ match fst (ge clean (Py.world st)) with
       | inr entity =>
           if isinstance_User entity
           then out = Some entity /\ recs = []
           else out = None /\ recs = [Log WARNING (NotAUserRecord clean)]
       | inl UsernameNotOccupiedError =>
           out = None /\ recs = [Log ERROR (NotFoundRecord clean)]
       | inl UsernameInvalidError =>
           out = None /\ recs = [Log ERROR (InvalidRecord clean)]
       | inl e =>
           out = None /\ recs = [Log ERROR (ResolveErrorRecord clean e)]
       end.
Proof.
  intros clean. py_run. fold clean.
  destruct (ge clean (Py.world st)) as [[e|entity] w'].
  - destruct e; simpl; rewrite <- app_assoc; simpl; eauto.
  - destruct entity; simpl; try rewrite <- app_assoc; simpl; eauto.
Qed.

Lemma send_message_unresolved (username message : string)
    (st st1 : Py.State World) :
  resolve_username ge username st = (inr None, st1) ->
  send_message ge sm username message st = (inr false, st1).
Proof.
  intros Hres. unfold send_message, Py.bind. now rewrite Hres.
Qed.

(** What [send_message] does once the handle is resolved, by the answer
    of the send capability. *)
Lemma send_message_resolved (username message : string) (user : Entity)
    (st st1 : Py.State World) :
  resolve_username ge username st = (inr (Some user), st1) ->
  exists b lvl rec,
    send_message ge sm username message st
    = (inr b,
       Py.mkState (snd (sm user message (Py.world st1)))
                  (Py.trace st1 ++ [SendMessageCall user message; Log lvl rec]))
    /\ match fst (sm user message (Py.world st1)) with
       | inr _ => b = true /\ lvl = INFO /\ rec = SentRecord username
       | inl (FloodWaitError seconds) =>
           b = false /\ lvl = ERROR /\ rec = RateLimitedRecord seconds
       | inl PeerFloodError =>
           b = false /\ lvl = ERROR /\ rec = TooManyRequestsRecord
       | inl e => b = false /\ lvl = ERROR /\ rec = SendFailedRecord username e
       end.
Proof.
  intros Hres. unfold send_message, Py.bind at 1. rewrite Hres.
  py_run. destruct (sm user message (Py.world st1)) as [[e|[]] w2]; simpl.
  - destruct e; simpl; rewrite <- app_assoc; simpl; eauto 8.
  - rewrite <- app_assoc; simpl; eauto 8.
Qed.

(** Every attempt returns, and its events are a lookup, at most one
    send, and exactly one log record. *)
Lemma send_message_shape (username message : string) (st : Py.State World) :
  exists b st1 tail lvl rec,
    send_message ge sm username message st = (inr b, st1)
    /\ Py.trace st1
       = Py.trace st ++ GetEntityCall (clean_username username) :: tail
    /\ filter is_lookup tail = []
    /\ filter is_sleep tail = []
    /\ filter is_log tail = [Log lvl rec]
    /\ (b = true <-> rec = SentRecord username).
Proof.
  destruct (resolve_username_run username st) as (out & recs & Hres & Hcase).
  destruct out as [user|].
  - destruct (send_message_resolved username message user _ _ Hres)
      as (b & lvl & rec & Hsend & Hsm).
    assert (recs = []) as ->.
    { destruct (fst (ge _ _)) as [[]|entity]; try (now destruct Hcase).
      destruct (isinstance_User entity); now destruct Hcase. }
    exists b, (Py.mkState (snd (sm user message (snd (ge (clean_username username) (Py.world st)))))
               ((Py.trace st ++ [GetEntityCall (clean_username username)])
                ++ [SendMessageCall user message; Log lvl rec])),
      [SendMessageCall user message; Log lvl rec], lvl, rec.
    simpl in Hsend. rewrite Hsend. simpl.
    rewrite <- app_assoc. simpl. repeat split; trivial.
    + destruct (fst (sm _ _ _)) as [[]|]; intros ->;
        destruct Hsm as (Hb & _ & Hr); congruence.
    + destruct (fst (sm _ _ _)) as [[]|]; intros ->;
        destruct Hsm as (Hb & _ & Hr); congruence.
  - rewrite (send_message_unresolved username message _ _ Hres).
    assert (exists lvl rec, recs = [Log lvl rec] /\ rec <> SentRecord username)
      as (lvl & rec & -> & Hrec).
    { destruct (fst (ge _ _)) as [[]|entity];
        try (destruct Hcase as [_ ->]; eexists _, _; split;
             [reflexivity|discriminate]).
      destruct (isinstance_User entity); destruct Hcase as [Ho ->];
        [discriminate|]. eexists _, _; split; [reflexivity|discriminate]. }
    eexists false, _, [Log lvl rec], lvl, rec. simpl.
    repeat split; trivial; [discriminate|intros; contradiction].
Qed.

End Attempts.

(** ** Dealing a list out into two *)

Lemma Partitioned_length {A : Type} (l l1 l2 : list A) :
  Partitioned l l1 l2 -> (List.length l1 + List.length l2 = List.length l)%nat.
Proof.
  induction 1; simpl; lia.
Qed.

Lemma Partitioned_Permutation {A : Type} (l l1 l2 : list A) :
  Partitioned l l1 l2 -> Permutation (l1 ++ l2) l.
Proof.
  induction 1; simpl.
  - constructor.
  - now constructor.
  - symmetry. apply Permutation_cons_app. now symmetry.
Qed.

(** ** Suspensions in a run of attempts *)

Lemma pause_positive (delay : Z) : delay > 0 -> pause delay = [Sleep delay].
Proof.
  intros H. unfold pause. destruct (Z.gtb_spec delay 0); [reflexivity|lia].
Qed.

Lemma pause_nonpositive (delay : Z) : delay <= 0 -> pause delay = [].
Proof.
  intros H. unfold pause. destruct (Z.gtb_spec delay 0); [lia|reflexivity].
Qed.

Lemma attempt_on_no_sleep (username : string) (segment : list Event) :
  attempt_on username segment -> filter is_sleep segment = [].
Proof.
  intros (tail & -> & _ & Hsleep). exact Hsleep.
Qed.

Lemma pause_all_sleep (delay : Z) :
  filter is_sleep (pause delay) = pause delay.
Proof.
  unfold pause. now destruct (delay >? 0).
Qed.

Lemma sleeps_of_segments (delay : Z) (usernames : list string)
    (segments : list (list Event)) :
  Forall2 attempt_on usernames segments ->
  filter is_sleep (List.concat (map (fun seg => seg ++ pause delay) segments))
  = List.concat (map (fun _ => pause delay) usernames).
Proof.
  induction 1 as [|u seg us segs Hseg _ IH]; simpl; [reflexivity|].
  rewrite !filter_app, (attempt_on_no_sleep _ _ Hseg), pause_all_sleep, IH.
  reflexivity.
Qed.

Lemma pauses_positive (delay : Z) (usernames : list string) :
  delay > 0 ->
  List.concat (map (fun _ => pause delay) usernames)
  = repeat (Sleep delay) (List.length usernames).
Proof.
  intros H. rewrite (pause_positive _ H).
  induction usernames; simpl; congruence.
Qed.

Lemma pauses_nonpositive (delay : Z) (usernames : list string) :
  delay <= 0 -> List.concat (map (fun _ => pause delay) usernames) = [].
Proof.
  intros H. rewrite (pause_nonpositive _ H).
  induction usernames; simpl; congruence.
Qed.

(** ** The batch loop *)

Section Batch.

Context {World : Type}.
Variable ge : string -> World -> Py.Outcome Entity * World.
Variable sm : Entity -> string -> World -> Py.Outcome unit * World.

Lemma float_limit_positive : 0 < float_limit.
Proof. reflexivity. Qed.

(** The suspension of one turn, for a delay that [asyncio.sleep] accepts. *)
Lemma suspension_accepted (delay : Z) (st : Py.State World) :
  delay < float_limit ->
  (if delay >? 0 then asyncio_sleep delay else Py.ret tt) st
  = (inr tt, Py.mkState (Py.world st) (Py.trace st ++ pause delay)).
Proof.
  intros Hdelay. unfold pause, asyncio_sleep, Py.emit, Py.ret.
  destruct (delay >? 0).
  - destruct (Z.ltb_spec delay float_limit); [reflexivity|lia].
  - rewrite app_nil_r. now destruct st.
Qed.

(** The suspension of one turn, for a delay above zero that does not
    convert to a float. *)
Lemma suspension_refused (delay : Z) (st : Py.State World) :
  float_limit <= delay ->
  (if delay >? 0 then asyncio_sleep delay else Py.ret tt) st
  = (inl (OtherError "int too large to convert to float"), st).
Proof.
  intros Hdelay. pose proof float_limit_positive as Hpos.
  unfold asyncio_sleep, Py.raise.
  destruct (Z.gtb_spec delay 0); [|lia].
  destruct (Z.ltb_spec delay float_limit); [lia|reflexivity].
Qed.

(** One turn: the attempt, the record of its result, the suspension. *)
Lemma bulk_step_unfolded (username message : string) (delay : Z)
    (results : Results) (b : bool) (st st1 : Py.State World) :
  send_message ge sm username message st = (inr b, st1) ->
  bulk_step ge sm username message delay results st
  = (let (r, st2) :=
       (if delay >? 0 then asyncio_sleep delay else Py.ret tt) st1 in
     (match r with
      | inl e => inl e
      | inr _ =>
          inr (if b
               then mkResults (successful results ++ [username])
                              (failed results) (total results)
               else mkResults (successful results)
                              (failed results ++ [username]) (total results))
      end, st2)).
Proof.
  intros Hsend. unfold bulk_step, Py.bind at 1. rewrite Hsend.
  unfold Py.bind.
  now destruct ((if delay >? 0 then asyncio_sleep delay else Py.ret tt) st1)
    as [[e|[]] st2].
Qed.

Lemma bulk_step_run (username message : string) (delay : Z)
    (results : Results) (b : bool) (st st1 : Py.State World) :
  delay < float_limit ->
  send_message ge sm username message st = (inr b, st1) ->
  bulk_step ge sm username message delay results st
  = (inr (if b
          then mkResults (successful results ++ [username]) (failed results)
                         (total results)
          else mkResults (successful results) (failed results ++ [username])
                         (total results)),
     Py.mkState (Py.world st1) (Py.trace st1 ++ pause delay)).
Proof.
  intros Hdelay Hsend.
  rewrite (bulk_step_unfolded username message delay results b st st1 Hsend).
  now rewrite suspension_accepted.
Qed.

(** The loop returns; it deals the usernames out to the two lists behind
    what they held, leaves [total] alone, and its events are one attempt
    per username, each followed by the pause. *)
Lemma bulk_loop_run (message : string) (delay : Z) (usernames : list string) :
  delay < float_limit ->
  forall (results : Results) (st : Py.State World),
  exists final st' s f segments,
    bulk_loop ge sm usernames message delay results st = (inr final, st')
    /\ successful final = successful results ++ s
    /\ failed final = failed results ++ f
    /\ total final = total results
    /\ Partitioned usernames s f
    /\ Forall2 attempt_on usernames segments
    /\ Py.trace st'
       = Py.trace st ++ List.concat (map (fun seg => seg ++ pause delay) segments).
Proof.
  intros Hdelay.
  induction usernames as [|u rest IH]; intros results st.
  - exists results, st, [], [], []. simpl. rewrite !app_nil_r.
    repeat split; constructor.
  - destruct (send_message_shape ge sm u message st)
      as (b & st1 & tail & lvl & rec & Hsend & Htrace & Hlook & Hsleep & _).
    simpl. unfold Py.bind at 1.
    rewrite (bulk_step_run u message delay results b st st1 Hdelay Hsend).
    match goal with
    | |- context [bulk_loop ge sm rest message delay ?r ?s] =>
        destruct (IH r s)
          as (final & st' & s' & f' & segs & Hloop & Hs & Hf & Ht & Hp & Hseg & Htr)
    end.
    rewrite Hloop.
    exists final, st', (if b then u :: s' else s'), (if b then f' else u :: f'),
      ((GetEntityCall (clean_username u) :: tail) :: segs).
    destruct b; simpl in *; rewrite Hs, Hf, Ht, Htr, Htrace;
      rewrite <- ?app_assoc; simpl;
      (repeat split; trivial;
       [ now constructor
       | constructor; [now exists tail | assumption] ]).
Qed.

(** Where the loop stands at [username] and the attempt on it returns
    [b], the username goes to the list that [b] selects. *)
Lemma bulk_loop_records (username message : string) (delay : Z)
    (rest : list string) (results : Results) (b : bool)
    (st st1 : Py.State World) :
  delay < float_limit ->
  send_message ge sm username message st = (inr b, st1) ->
  exists final st' s f,
    bulk_loop ge sm (username :: rest) message delay results st
    = (inr final, st')
    /\ Partitioned rest s f
    /\ successful final
       = successful results ++ (if b then username :: s else s)
    /\ failed final = failed results ++ (if b then f else username :: f).
Proof.
  intros Hdelay Hsend. simpl. unfold Py.bind at 1.
  rewrite (bulk_step_run username message delay results b st st1 Hdelay Hsend).
  match goal with
  | |- context [bulk_loop ge sm rest message delay ?r ?s] =>
      destruct (bulk_loop_run message delay rest Hdelay r s)
        as (final & st' & s' & f' & segs & Hloop & Hs & Hf & _ & Hp & _)
  end.
  rewrite Hloop. exists final, st', s', f'.
  destruct b; simpl in *; rewrite Hs, Hf, <- ?app_assoc; auto.
Qed.

(** The whole batch: the loop from empty lists, then the closing record. *)
Lemma send_bulk_messages_run (usernames : list string) (message : string)
    (delay : Z) (st : Py.State World) :
  delay < float_limit ->
  exists results st' segments,
    send_bulk_messages ge sm usernames message delay st = (inr results, st')
    /\ total results = List.length usernames
    /\ Partitioned usernames (successful results) (failed results)
    /\ Forall2 attempt_on usernames segments
    /\ Py.trace st'
       = Py.trace st
         ++ List.concat (map (fun seg => seg ++ pause delay) segments)
         ++ [Log INFO (BulkCompleteRecord (List.length (successful results))
                                          (total results))].
Proof.
  intros Hdelay.
  destruct (bulk_loop_run message delay usernames Hdelay
              (mkResults [] [] (List.length usernames)) st)
    as (final & st' & s & f & segs & Hloop & Hs & Hf & Ht & Hp & Hseg & Htr).
  unfold send_bulk_messages, Py.bind at 1. rewrite Hloop.
  unfold logger, Py.bind, Py.emit, Py.ret. eexists final, _, segs.
  split; [reflexivity|].
  simpl. rewrite Hs, Hf, Ht, Htr, <- app_assoc. simpl. auto.
Qed.

(** A batch that is not empty, with a delay above zero that does not
    convert to a float, raises at its first suspension: after the first
    attempt, with no suspension done and nothing returned. *)
Lemma send_bulk_messages_refused (username : string) (rest : list string)
    (message : string) (delay : Z) (st : Py.State World) :
  float_limit <= delay ->
  exists b st1,
    send_message ge sm username message st = (inr b, st1)
    /\ send_bulk_messages ge sm (username :: rest) message delay st
       = (inl (OtherError "int too large to convert to float"), st1).
Proof.
  intros Hdelay.
  destruct (send_message_shape ge sm username message st)
    as (b & st1 & _ & _ & _ & Hsend & _).
  exists b, st1. split; [exact Hsend|].
  unfold send_bulk_messages, Py.bind at 1. simpl bulk_loop.
  unfold Py.bind at 1.
  rewrite (bulk_step_unfolded username message delay _ b st st1 Hsend).
  now rewrite suspension_refused.
Qed.

(** Where the loop stands at [username] and the attempt on it returns
    [b], the loop goes on, behind the suspension of this turn, from the
    results in which the username is put behind the list that [b]
    selects. *)
Lemma bulk_loop_goes_on (username message : string) (delay : Z)
    (rest : list string) (results : Results) (b : bool)
    (st st1 : Py.State World) :
  send_message ge sm username message st = (inr b, st1) ->
  bulk_loop ge sm (username :: rest) message delay results st
  = Py.bind (if delay >? 0 then asyncio_sleep delay else Py.ret tt)
      (fun _ =>
         bulk_loop ge sm rest message delay
           (if b
            then mkResults (successful results ++ [username]) (failed results)
                           (total results)
            else mkResults (successful results) (failed results ++ [username])
                           (total results)))
      st1.
Proof.
  intros Hsend. simpl. unfold Py.bind at 1.
  rewrite (bulk_step_unfolded username message delay results b st st1 Hsend).
  unfold Py.bind.
  now destruct ((if delay >? 0 then asyncio_sleep delay else Py.ret tt) st1)
    as [[e|[]] st2].
Qed.

End Batch.

(** ** Configuration *)

Lemma some_missing (environ : Environ) :
  (exists name, In name required_credentials /\ truthy (environ name) = false) ->
  filter (fun name => negb (truthy (environ name))) required_credentials <> [].
Proof.
  intros (name & Hin & Hfalse) Hnil.
  assert (In name (filter (fun name => negb (truthy (environ name)))
                     required_credentials)) as Hmem.
  { apply filter_In. split; [assumption|]. now rewrite Hfalse. }
  rewrite Hnil in Hmem. contradiction.
Qed.

Lemma none_missing (environ : Environ) :
  (forall name, In name required_credentials -> truthy (environ name) = true) ->
  filter (fun name => negb (truthy (environ name))) required_credentials = [].
Proof.
  intros Hall. unfold required_credentials. simpl.
  rewrite !Hall; simpl; auto.
Qed.

Section Startup.

Context {World : Type}.
Variable int_of_str : string -> option Z.
Variable new_client :
  string -> Z -> option string -> World -> Py.Outcome unit * World.

Lemma TelegramConfig_init_run (environ : Environ) (st : Py.State World) :
  TelegramConfig_init environ st
  = match filter (fun name => negb (truthy (environ name)))
                 required_credentials with
    | [] =>
        (inr (mkConfig (environ "API_ID") (environ "API_HASH")
                       (environ "PHONE_NUMBER")
                       (getenv_default environ "SESSION_NAME"
                                       "telegram_session")), st)
    | missing => (inl (ValueError (missing_message missing)), st)
    end.
Proof.
  unfold TelegramConfig_init, _validate_credentials, getenv, Py.bind,
    required_credentials.
  simpl.
  destruct (truthy (environ "API_ID")), (truthy (environ "API_HASH")),
    (truthy (environ "PHONE_NUMBER")); reflexivity.
Qed.

Lemma get_api_id_unparsable (self : TelegramConfig) (text : string)
    (st : Py.State World) :
  api_id self = Some text -> int_of_str text = None ->
  get_api_id int_of_str self st
  = (inl (ValueError "API_ID must be a valid integer"), st).
Proof.
  intros Hid Hparse. unfold get_api_id, int_, Py.try_except.
  now rewrite Hid, Hparse.
Qed.

Lemma TelegramSender_init_reraises (environ : Environ) (e : PyException)
    (st : Py.State World) :
  TelegramConfig_init environ st = (inl e, st) ->
  TelegramSender_init int_of_str new_client environ st
  = (inl e,
     Py.mkState (Py.world st) (Py.trace st ++ [Log ERROR (InitFailedRecord e)])).
Proof.
  intros Hcfg. unfold TelegramSender_init, Py.try_except, Py.bind at 1.
  now rewrite Hcfg.
Qed.

End Startup.

(** ** The properties of the specification *)

(** C1, as the specification words it, fails: with a delay that does not
    convert to a float the batch raises at its first suspension, after the
    first attempt, and returns no result. *)
Lemma bulk_raises_on_unconvertible_delay :
  send_bulk_messages Stub.lookup (Stub.deliver 10 30) ["alice"; "bob"] "hi"
    (2 ^ 1024) Stub.start
  = (inl (OtherError "int too large to convert to float"),
     Py.mkState 1%nat
       [GetEntityCall "alice"; SendMessageCall (User 1) "hi";
        Log INFO (SentRecord "alice")])
  /\ ~ exists results st',
         send_bulk_messages Stub.lookup (Stub.deliver 10 30) ["alice"; "bob"]
           "hi" (2 ^ 1024) Stub.start
         = (inr results, st').
Proof.
  assert (send_bulk_messages Stub.lookup (Stub.deliver 10 30) ["alice"; "bob"]
            "hi" (2 ^ 1024) Stub.start
          = (inl (OtherError "int too large to convert to float"),
             Py.mkState 1%nat
               [GetEntityCall "alice"; SendMessageCall (User 1) "hi";
                Log INFO (SentRecord "alice")])) as Hrun
    by (vm_compute; reflexivity).
  split; [exact Hrun|].
  intros (results & st' & Hreturns). rewrite Hrun in Hreturns. discriminate.
Qed.

(** C1, amended.  For every sequence of usernames, every message and
    every delay that [asyncio.sleep] accepts (and for the empty sequence
    with any delay), [send_bulk_messages] returns a result whose [total] is
    the length of the input, whose two lists have [total] entries together,
    and which deals the input out to [successful] and [failed]: every
    username of the input, as often as it occurs and in the order of the
    input, is in exactly one of the two. *)
Theorem send_bulk_messages_partitions_input {World : Type}
    (ge : string -> World -> Py.Outcome Entity * World)
    (sm : Entity -> string -> World -> Py.Outcome unit * World)
    (usernames : list string) (message : string) (delay : Z)
    (st : Py.State World) :
  usernames = [] \/ delay < float_limit ->
  exists results st',
    send_bulk_messages ge sm usernames message delay st = (inr results, st')
    /\ total results = List.length usernames
    /\ (List.length (successful results) + List.length (failed results)
        = total results)%nat
    /\ Partitioned usernames (successful results) (failed results)
    /\ Permutation (successful results ++ failed results) usernames.
Proof.
  intros [-> | Hdelay].
  - eexists (mkResults [] [] 0), _. split; [reflexivity|].
    simpl. repeat split; constructor.
  - destruct (send_bulk_messages_run ge sm usernames message delay st Hdelay)
      as (results & st' & segs & Hrun & Htotal & Hpart & _).
    exists results, st'. repeat split; trivial.
    + rewrite Htotal. now apply Partitioned_length.
    + now apply Partitioned_Permutation.
Qed.

Lemma send_bulk_messages_partitions_input_witness :
  (["alice"; "ghost"; "alice"] = [] \/ 1 < float_limit)
  /\ exists results st',
       send_bulk_messages Stub.lookup (Stub.deliver 1 30)
         ["alice"; "ghost"; "alice"] "hi" 1 Stub.start
       = (inr results, st')
       /\ total results = List.length ["alice"; "ghost"; "alice"]
       /\ (List.length (successful results) + List.length (failed results)
           = total results)%nat
       /\ Partitioned ["alice"; "ghost"; "alice"]
            (successful results) (failed results)
       /\ Permutation (successful results ++ failed results)
            ["alice"; "ghost"; "alice"].
Proof.
  assert (["alice"; "ghost"; "alice"] = [] \/ 1 < float_limit) as Hdelay
    by (right; reflexivity).
  split; [exact Hdelay|].
  exact (send_bulk_messages_partitions_input Stub.lookup (Stub.deliver 1 30)
           ["alice"; "ghost"; "alice"] "hi" 1 Stub.start Hdelay).
Defined.

(** C3, as the specification words it, fails: [send_message] answers
    [False] for an account that has blocked the sender and for a channel
    alike, so its value is no tagged outcome: no reading of it gives
    [Blocked] for the one and [NotAUser] for the other. *)
Lemma send_message_returns_no_tag :
  fst (send_message Stub.lookup (Stub.deliver 10 30) "bob" "hi" Stub.start)
  = inr false
  /\ fst (send_message Stub.lookup (Stub.deliver 10 30) "news" "hi" Stub.start)
     = inr false
  /\ ~ exists decode : Py.Outcome bool -> DispatchOutcome,
         decode (fst (send_message Stub.lookup (Stub.deliver 10 30)
                        "bob" "hi" Stub.start)) = Blocked
         /\ decode (fst (send_message Stub.lookup (Stub.deliver 10 30)
                           "news" "hi" Stub.start)) = NotAUser.
Proof.
  repeat split; try reflexivity.
  intros (decode & Hblocked & Hchannel).
  change (decode (inr false) = Blocked) in Hblocked.
  change (decode (inr false) = NotAUser) in Hchannel.
  congruence.
Qed.

(** C3, amended.  Whatever the session answers or raises, [send_message]
    returns a boolean and no exception reaches the caller.  The boolean and
    the events are fixed by the answers: the lookup of the cleaned name
    comes first; when it raises or hands back something that is not a
    [User], there is no send, the value is [False] and the one log record
    names the failure (not found, invalid, not a user, or the other
    exception); when it hands back a [User] there is exactly one send to
    that user, and the value is [True] with the record of a message sent
    when the send returns, [False] with the record of the failure (the
    seconds of a flood wait, too many requests, or the other exception) when
    it raises. *)
Theorem send_message_total {World : Type}
    (ge : string -> World -> Py.Outcome Entity * World)
    (sm : Entity -> string -> World -> Py.Outcome unit * World)
    (username message : string) (st : Py.State World) :
  let clean := clean_username username in
  let found := ge clean (Py.world st) in
  exists (b : bool) (w' : World) (events : list Event),
    send_message ge sm username message st
    = (inr b, Py.mkState w' (Py.trace st ++ GetEntityCall clean :: events))
    /\ match fst found with
       | inl e =>
           b = false /\ w' = snd found
           /\ events
              = [Log ERROR
                   match e with
                   | UsernameNotOccupiedError => NotFoundRecord clean
                   | UsernameInvalidError => InvalidRecord clean
                   | _ => ResolveErrorRecord clean e
                   end]
       | inr entity =>
           if isinstance_User entity
           then
             let sent := sm entity message (snd found) in
             w' = snd sent
             /\ match fst sent with
                | inr _ =>
                    b = true
                    /\ events
                       = [SendMessageCall entity message;
                          Log INFO (SentRecord username)]
                | inl e =>
                    b = false
                    /\ events
                       = [SendMessageCall entity message;
                          Log ERROR
                            match e with
                            | FloodWaitError seconds => RateLimitedRecord seconds
                            | PeerFloodError => TooManyRequestsRecord
                            | _ => SendFailedRecord username e
                            end]
                end
           else
             b = false /\ w' = snd found
             /\ events = [Log WARNING (NotAUserRecord clean)]
       end.
Proof.
  intros clean found.
  destruct (resolve_username_run ge username st) as (out & recs & Hres & Hcase).
  simpl in Hres. fold clean in Hres, Hcase. fold found in Hres, Hcase.
  destruct (fst found) as [e|entity] eqn:Hfound.
  - assert (out = None
            /\ recs = [Log ERROR
                         match e with
                         | UsernameNotOccupiedError => NotFoundRecord clean
                         | UsernameInvalidError => InvalidRecord clean
                         | _ => ResolveErrorRecord clean e
                         end]) as [-> ->]
      by (destruct e; exact Hcase).
    rewrite (send_message_unresolved ge sm username message _ _ Hres).
    eexists false, _, _. split; [reflexivity|]. auto.
  - destruct (isinstance_User entity) eqn:Huser.
    + destruct Hcase as [-> ->].
      destruct (send_message_resolved ge sm username message entity _ _ Hres)
        as (b & lvl & rec & Hsend & Hsm).
      simpl in Hsend, Hsm. rewrite <- app_assoc in Hsend. simpl in Hsend.
      rewrite Hsend.
      eexists b, _, _. split; [reflexivity|]. split; [reflexivity|].
      destruct (fst (sm entity message (snd found))) as [e|[]].
      * destruct e; destruct Hsm as (-> & -> & ->); auto.
      * destruct Hsm as (-> & -> & ->). auto.
    + destruct Hcase as [-> ->].
      rewrite (send_message_unresolved ge sm username message _ _ Hres).
      eexists false, _, _. split; [reflexivity|]. auto.
Qed.

(** C4, as the specification words it, fails: with a delay above zero
    that does not convert to a float, a batch of two usernames ends at its
    first suspension, which raises: no suspension is done, the second
    username is never attempted, and no result is returned. *)
Lemma bulk_never_suspends_on_unconvertible_delay :
  2 ^ 1024 > 0
  /\ fst (send_bulk_messages Stub.lookup (Stub.deliver 10 30) ["alice"; "bob"]
            "hi" (2 ^ 1024) Stub.start)
     = inl (OtherError "int too large to convert to float")
  /\ filter is_sleep
       (Py.trace
          (snd (send_bulk_messages Stub.lookup (Stub.deliver 10 30)
                  ["alice"; "bob"] "hi" (2 ^ 1024) Stub.start)))
     = []
  /\ repeat (Sleep (2 ^ 1024)) (List.length ["alice"; "bob"]) <> [].
Proof.
  split; [reflexivity|].
  split; [vm_compute; reflexivity|].
  split; [vm_compute; reflexivity|].
  discriminate.
Qed.

(** C4, amended.  With a delay above zero that [asyncio.sleep] accepts
    and a batch of k usernames (k at least one), the batch suspends for the
    delay after every attempt, the last one included: its events are, for
    each username in turn, the events of the attempt followed by
    [Sleep delay], then the closing record; so there are exactly k
    suspensions, each of the configured delay, and the last comes right
    before the closing record. *)
Theorem bulk_sleeps_after_every_attempt {World : Type}
    (ge : string -> World -> Py.Outcome Entity * World)
    (sm : Entity -> string -> World -> Py.Outcome unit * World)
    (usernames : list string) (message : string) (delay : Z)
    (st : Py.State World) :
  usernames <> [] ->
  delay > 0 ->
  delay < float_limit ->
  exists results st' segments events,
    send_bulk_messages ge sm usernames message delay st = (inr results, st')
    /\ Py.trace st' = Py.trace st ++ events
    /\ Forall2 attempt_on usernames segments
    /\ events
       = List.concat (map (fun seg => seg ++ [Sleep delay]) segments)
         ++ [Log INFO (BulkCompleteRecord (List.length (successful results))
                                          (total results))]
    /\ filter is_sleep events = repeat (Sleep delay) (List.length usernames)
    /\ exists before,
         events
         = before
           ++ [Sleep delay;
               Log INFO (BulkCompleteRecord (List.length (successful results))
                                            (total results))].
Proof.
  intros Hne Hpos Hdelay.
  destruct (send_bulk_messages_run ge sm usernames message delay st Hdelay)
    as (results & st' & segs & Hrun & _ & _ & Hseg & Htrace).
  pose proof (sleeps_of_segments delay _ _ Hseg) as Hsleeps.
  rewrite (pauses_positive _ _ Hpos) in Hsleeps.
  rewrite (pause_positive _ Hpos) in Htrace, Hsleeps.
  eexists results, st', segs, _. repeat split; eauto.
  - rewrite filter_app, Hsleeps. simpl. now rewrite app_nil_r.
  - destruct (exists_last (l := segs)) as (front & last_seg & ->).
    { intros ->. inversion Hseg. congruence. }
    exists (List.concat (map (fun seg => seg ++ [Sleep delay]) front) ++ last_seg).
    rewrite map_app, concat_app. simpl.
    rewrite app_nil_r, <- !app_assoc. reflexivity.
Qed.

(** C10.  With a delay of zero or below, negative delays included, the
    batch never suspends and still returns the complete result for the
    whole input. *)
Theorem bulk_without_delay_never_sleeps {World : Type}
    (ge : string -> World -> Py.Outcome Entity * World)
    (sm : Entity -> string -> World -> Py.Outcome unit * World)
    (usernames : list string) (message : string) (delay : Z)
    (st : Py.State World) :
  delay <= 0 ->
  exists results st' events,
    send_bulk_messages ge sm usernames message delay st = (inr results, st')
    /\ Py.trace st' = Py.trace st ++ events
    /\ filter is_sleep events = []
    /\ total results = List.length usernames
    /\ (List.length (successful results) + List.length (failed results)
        = List.length usernames)%nat
    /\ Partitioned usernames (successful results) (failed results).
Proof.
  intros Hle.
  assert (delay < float_limit) as Hdelay
    by (pose proof float_limit_positive; lia).
  destruct (send_bulk_messages_run ge sm usernames message delay st Hdelay)
    as (results & st' & segs & Hrun & Htotal & Hpart & Hseg & Htrace).
  pose proof (sleeps_of_segments delay _ _ Hseg) as Hsleeps.
  rewrite (pauses_nonpositive _ _ Hle) in Hsleeps.
  eexists results, st', _. repeat split; eauto.
  - rewrite filter_app, Hsleeps. reflexivity.
  - now apply Partitioned_length.
Qed.

(** C5, as the specification words it, fails: [lstrip] removes every
    leading marker, so a handle that begins with two of them loses both,
    and the lookup is asked for the name without any. *)
Lemma clean_username_strips_two_markers :
  clean_username "@@alice" = "alice"
  /\ strip_single_marker "@@alice" = "@alice"
  /\ clean_username "@@alice" <> strip_single_marker "@@alice"
  /\ Py.trace (snd (resolve_username Stub.lookup "@@alice" Stub.start))
     = [GetEntityCall "alice"].
Proof.
  repeat split; try reflexivity. discriminate.
Qed.

(** C5, amended.  The name handed to the lookup is the handle without its
    whole run of leading marker characters and otherwise untouched: the
    handle is some number of markers followed by the cleaned name, and the
    cleaned name does not begin with a marker; a handle that begins with
    two markers loses both. *)
Theorem clean_username_strips_all_markers (username : string) :
  (exists n, username = (markers n ++ clean_username username)%string)
  /\ (forall rest, clean_username username <> String "@" rest)
  /\ clean_username (String "@" (String "@" username)) = clean_username username
  /\ forall (World : Type) (ge : string -> World -> Py.Outcome Entity * World)
       (st : Py.State World),
     exists records,
       Py.trace (snd (resolve_username ge username st))
       = Py.trace st ++ GetEntityCall (clean_username username) :: records
       /\ filter is_lookup records = [].
Proof.
  repeat split.
  - apply clean_username_decompose.
  - apply clean_username_no_marker.
  - intros World ge st.
    destruct (resolve_username_run ge username st) as (out & recs & Hres & Hcase).
    exists recs. rewrite Hres. split; [reflexivity|].
    destruct (fst (ge _ _)) as [[]|entity]; try (now destruct Hcase as [_ ->]).
    destruct (isinstance_User entity); now destruct Hcase as [_ ->].
Qed.

(** C6.  In any state of the session, resolving a handle with a leading
    marker does exactly what resolving it without the marker does: the same
    lookup, the same answer, the same log records, the same state after. *)
Theorem resolve_username_marker_irrelevant {World : Type}
    (ge : string -> World -> Py.Outcome Entity * World)
    (h : string) (st : Py.State World) :
  resolve_username ge (String "@" h) st = resolve_username ge h st.
Proof.
  unfold resolve_username. rewrite clean_username_marker. reflexivity.
Qed.

(** C2, as the specification words it, fails: [send_message] answers
    [False] for an unoccupied handle and for an invalid one alike, so no
    reading of its value gives each failure its own tag. *)
Lemma resolution_failure_tag_not_returned :
  fst (send_message Stub.lookup (Stub.deliver 10 30) "ghost" "hi" Stub.start)
  = inr false
  /\ fst (send_message Stub.lookup (Stub.deliver 10 30) "bad name" "hi" Stub.start)
     = inr false
  /\ ~ exists decode : Py.Outcome bool -> DispatchOutcome,
         decode (fst (send_message Stub.lookup (Stub.deliver 10 30)
                        "ghost" "hi" Stub.start)) = NotFound
         /\ decode (fst (send_message Stub.lookup (Stub.deliver 10 30)
                           "bad name" "hi" Stub.start)) = InvalidHandle.
Proof.
  repeat split; try reflexivity.
  intros (decode & Hnot_found & Hinvalid).
  change (decode (inr false) = NotFound) in Hnot_found.
  change (decode (inr false) = InvalidHandle) in Hinvalid.
  congruence.
Qed.

(** C2, amended.  When the lookup raises, or hands back something that is
    not a [User], [resolve_username] returns [None] and [send_message]
    returns [False] in the state the resolution left: the events of the
    call are the lookup and the one log record that names the failure, the
    world is as the lookup left it, and the send capability is not called. *)
Theorem resolution_failure_short_circuits {World : Type}
    (ge : string -> World -> Py.Outcome Entity * World)
    (sm : Entity -> string -> World -> Py.Outcome unit * World)
    (username message : string) (st : Py.State World) :
  (forall entity,
     fst (ge (clean_username username) (Py.world st)) = inr entity ->
     isinstance_User entity = false) ->
  exists lvl rec,
    let st1 :=
      Py.mkState (snd (ge (clean_username username) (Py.world st)))
                 (Py.trace st
                  ++ [GetEntityCall (clean_username username); Log lvl rec]) in
    resolve_username ge username st = (inr None, st1)
    /\ send_message ge sm username message st = (inr false, st1)
    /\ filter is_send (Py.trace st1) = filter is_send (Py.trace st)
    /\ match fst (ge (clean_username username) (Py.world st)) with
       | inr _ => lvl = WARNING /\ rec = NotAUserRecord (clean_username username)
       | inl UsernameNotOccupiedError =>
           lvl = ERROR /\ rec = NotFoundRecord (clean_username username)
       | inl UsernameInvalidError =>
           lvl = ERROR /\ rec = InvalidRecord (clean_username username)
       | inl e =>
           lvl = ERROR /\ rec = ResolveErrorRecord (clean_username username) e
       end.
Proof.
  intros Hfail.
  destruct (resolve_username_run ge username st) as (out & recs & Hres & Hcase).
  simpl in Hres.
  assert (exists lvl rec,
            out = None /\ recs = [Log lvl rec]
            /\ match fst (ge (clean_username username) (Py.world st)) with
               | inr _ =>
                   lvl = WARNING /\ rec = NotAUserRecord (clean_username username)
               | inl UsernameNotOccupiedError =>
                   lvl = ERROR /\ rec = NotFoundRecord (clean_username username)
               | inl UsernameInvalidError =>
                   lvl = ERROR /\ rec = InvalidRecord (clean_username username)
               | inl e =>
                   lvl = ERROR
                   /\ rec = ResolveErrorRecord (clean_username username) e
               end) as (lvl & rec & -> & -> & Hrec).
  { destruct (fst (ge _ _)) as [[]|entity];
      try (destruct Hcase as [-> ->]; eexists _, _; now repeat split).
    rewrite (Hfail entity eq_refl) in Hcase. destruct Hcase as [-> ->].
    eexists _, _; now repeat split. }
  exists lvl, rec. cbv zeta. repeat split; trivial.
  - now apply send_message_unresolved.
  - simpl. rewrite filter_app. simpl. now rewrite app_nil_r.
Qed.

Lemma resolution_failure_short_circuits_witness :
  (forall entity,
     fst (Stub.lookup (clean_username "@news") (Py.world Stub.start)) = inr entity ->
     isinstance_User entity = false)
  /\ exists lvl rec,
       let st1 :=
         Py.mkState (snd (Stub.lookup (clean_username "@news") (Py.world Stub.start)))
                    (Py.trace Stub.start
                     ++ [GetEntityCall (clean_username "@news"); Log lvl rec]) in
       resolve_username Stub.lookup "@news" Stub.start = (inr None, st1)
       /\ send_message Stub.lookup (Stub.deliver 10 30) "@news" "hi" Stub.start
          = (inr false, st1)
       /\ filter is_send (Py.trace st1) = filter is_send (Py.trace Stub.start)
       /\ match fst (Stub.lookup (clean_username "@news") (Py.world Stub.start)) with
          | inr _ => lvl = WARNING /\ rec = NotAUserRecord (clean_username "@news")
          | inl UsernameNotOccupiedError =>
              lvl = ERROR /\ rec = NotFoundRecord (clean_username "@news")
          | inl UsernameInvalidError =>
              lvl = ERROR /\ rec = InvalidRecord (clean_username "@news")
          | inl e =>
              lvl = ERROR /\ rec = ResolveErrorRecord (clean_username "@news") e
          end.
Proof.
  assert (forall entity,
            fst (Stub.lookup (clean_username "@news") (Py.world Stub.start))
            = inr entity -> isinstance_User entity = false) as Hfail.
  { intros entity H. vm_compute in H. injection H as <-. reflexivity. }
  split; [exact Hfail|].
  exact (resolution_failure_short_circuits Stub.lookup (Stub.deliver 10 30)
           "@news" "hi" Stub.start Hfail).
Defined.






(** C9.  Start-up ([TelegramSender.__init__], which builds the
    configuration and reads the API identifier from it before it creates
    the client) fails without any call to the client or the network:
    - when a required variable is unset or empty, [TelegramConfig()] itself
      raises a [ValueError] whose message lists, in the order API_ID,
      API_HASH, PHONE_NUMBER, exactly the required variables that are
      missing, and start-up logs it and re-raises it;
    - when the text of API_ID is no integer, start-up raises, and with
      nothing missing the error is the [ValueError] of [get_api_id]. *)
Theorem startup_fails_on_bad_credentials {World : Type}
    (int_of_str : string -> option Z)
    (new_client : string -> Z -> option string -> World -> Py.Outcome unit * World)
    (environ : Environ) (st : Py.State World) :
  ((exists name, In name required_credentials /\ truthy (environ name) = false) ->
   let missing :=
     filter (fun name => negb (truthy (environ name))) required_credentials in
   let e := ValueError (missing_message missing) in
   missing <> []
   /\ TelegramConfig_init environ st = (inl e, st)
   /\ TelegramSender_init int_of_str new_client environ st
      = (inl e,
         Py.mkState (Py.world st)
                    (Py.trace st ++ [Log ERROR (InitFailedRecord e)])))
  /\ (forall text,
        environ "API_ID" = Some text -> int_of_str text = None ->
        exists e,
          TelegramSender_init int_of_str new_client environ st
          = (inl e,
             Py.mkState (Py.world st)
                        (Py.trace st ++ [Log ERROR (InitFailedRecord e)]))
          /\ ((forall name, In name required_credentials ->
                            truthy (environ name) = true) ->
              e = ValueError "API_ID must be a valid integer")).
Proof.
  split.
  - intros Hmissing missing e. apply some_missing in Hmissing.
    fold missing in Hmissing.
    assert (TelegramConfig_init environ st = (inl e, st)) as Hcfg.
    { rewrite TelegramConfig_init_run. fold missing. subst e.
      now destruct missing. }
    repeat split; trivial.
    now apply TelegramSender_init_reraises.
  - intros text Hid Hparse.
    pose proof (TelegramConfig_init_run (World := World) environ st) as Hcfg.
    destruct (filter _ required_credentials) as [|name missing] eqn:Hfilter.
    + exists (ValueError "API_ID must be a valid integer"). split; [|trivial].
      unfold TelegramSender_init, Py.try_except, Py.bind at 1.
      rewrite Hcfg. unfold Py.bind at 1, Py.ret at 1. unfold Py.bind at 1.
      rewrite (get_api_id_unparsable int_of_str _ text) by assumption.
      reflexivity.
    + eexists. split.
      * apply TelegramSender_init_reraises. exact Hcfg.
      * intros Hall. apply none_missing in Hall. congruence.
Qed.

Lemma startup_fails_on_bad_credentials_witness :
  ((exists name,
      In name required_credentials
      /\ truthy (Stub.environ_of (Some "12345") None (Some "") name) = false)
   /\ fst (TelegramSender_init Stub.int_of_str Stub.new_client
             (Stub.environ_of (Some "12345") None (Some "")) Stub.start)
      = inl (ValueError (missing_message ["API_HASH"; "PHONE_NUMBER"])))
  /\ (Stub.environ_of (Some "12a45") (Some "abcdef") (Some "+100") "API_ID"
      = Some "12a45"
      /\ Stub.int_of_str "12a45" = None
      /\ exists e,
           TelegramSender_init Stub.int_of_str Stub.new_client
             (Stub.environ_of (Some "12a45") (Some "abcdef") (Some "+100"))
             Stub.start
           = (inl e, Py.mkState 0%nat [Log ERROR (InitFailedRecord e)])
           /\ ((forall name, In name required_credentials ->
                  truthy (Stub.environ_of (Some "12a45") (Some "abcdef")
                            (Some "+100") name) = true) ->
               e = ValueError "API_ID must be a valid integer")).
Proof.
  assert (exists name,
            In name required_credentials
            /\ truthy (Stub.environ_of (Some "12345") None (Some "") name) = false)
    as Hmissing.
  { exists "API_HASH". split; [simpl; auto | reflexivity]. }
  split.
  - split; [exact Hmissing|].
    destruct (proj1 (startup_fails_on_bad_credentials Stub.int_of_str
                       Stub.new_client
                       (Stub.environ_of (Some "12345") None (Some ""))
                       Stub.start) Hmissing) as (_ & _ & Hinit).
    rewrite Hinit. reflexivity.
  - split; [reflexivity|]. split; [reflexivity|].
    exact (proj2 (startup_fails_on_bad_credentials Stub.int_of_str
                    Stub.new_client
                    (Stub.environ_of (Some "12a45") (Some "abcdef") (Some "+100"))
                    Stub.start) "12a45" eq_refl eq_refl).
Defined.

Lemma bulk_sleeps_after_every_attempt_witness :
  ["alice"; "@ghost"] <> []
  /\ 2 > 0
  /\ 2 < float_limit
  /\ exists results st' segments events,
       send_bulk_messages Stub.lookup (Stub.deliver 10 30) ["alice"; "@ghost"]
         "hi" 2 Stub.start = (inr results, st')
       /\ Py.trace st' = Py.trace Stub.start ++ events
       /\ Forall2 attempt_on ["alice"; "@ghost"] segments
       /\ events
          = List.concat (map (fun seg => seg ++ [Sleep 2]) segments)
            ++ [Log INFO (BulkCompleteRecord (List.length (successful results))
                                             (total results))]
       /\ filter is_sleep events
          = repeat (Sleep 2) (List.length ["alice"; "@ghost"])
       /\ exists before,
            events
            = before
              ++ [Sleep 2;
                  Log INFO (BulkCompleteRecord (List.length (successful results))
                                               (total results))].
Proof.
  assert (["alice"; "@ghost"] <> []) as Hne by discriminate.
  assert (2 > 0) as Hpos by lia.
  assert (2 < float_limit) as Hdelay by reflexivity.
  split; [exact Hne|]. split; [exact Hpos|]. split; [exact Hdelay|].
  exact (bulk_sleeps_after_every_attempt Stub.lookup (Stub.deliver 10 30)
           ["alice"; "@ghost"] "hi" 2 Stub.start Hne Hpos Hdelay).
Defined.

Lemma bulk_without_delay_never_sleeps_witness :
  -3 <= 0
  /\ exists results st' events,
       send_bulk_messages Stub.lookup (Stub.deliver 10 30) ["alice"; "news"]
         "hi" (-3) Stub.start = (inr results, st')
       /\ Py.trace st' = Py.trace Stub.start ++ events
       /\ filter is_sleep events = []
       /\ total results = List.length ["alice"; "news"]
       /\ (List.length (successful results) + List.length (failed results)
           = List.length ["alice"; "news"])%nat
       /\ Partitioned ["alice"; "news"] (successful results) (failed results).
Proof.
  assert (-3 <= 0) as Hle by lia.
  split; [exact Hle|].
  exact (bulk_without_delay_never_sleeps Stub.lookup (Stub.deliver 10 30)
           ["alice"; "news"] "hi" (-3) Stub.start Hle).
Defined.

(** ** Further properties of single attempts *)

Section MoreAttempts.

Context {World : Type}.
Variable ge : string -> World -> Py.Outcome Entity * World.
Variable sm : Entity -> string -> World -> Py.Outcome unit * World.

(** The calls of one attempt: the lookup, then at most one send, of the
    message, and exactly one when the attempt reports success. *)
Lemma send_message_calls (username message : string) (st : Py.State World) :
  exists b st1 tail,
    send_message ge sm username message st = (inr b, st1)
    /\ Py.trace st1
       = Py.trace st ++ GetEntityCall (clean_username username) :: tail
    /\ filter is_lookup tail = []
    /\ filter is_sleep tail = []
    /\ (filter is_send tail = []
        \/ exists user, filter is_send tail = [SendMessageCall user message])
    /\ (b = true -> List.length (filter is_send tail) = 1%nat).
Proof.
  destruct (resolve_username_run ge username st) as (out & recs & Hres & Hcase).
  simpl in Hres.
  destruct out as [user|].
  - destruct (send_message_resolved ge sm username message user _ _ Hres)
      as (b & lvl & rec & Hsend & _).
    assert (recs = []) as ->.
    { destruct (fst (ge _ _)) as [[]|entity]; try (now destruct Hcase).
      destruct (isinstance_User entity); now destruct Hcase. }
    simpl in Hsend. rewrite <- app_assoc in Hsend. simpl in Hsend.
    eexists b, _, [SendMessageCall user message; Log lvl rec].
    split; [exact Hsend|]. simpl. repeat split; eauto.
  - rewrite (send_message_unresolved ge sm username message _ _ Hres).
    assert (exists lvl rec, recs = [Log lvl rec]) as (lvl & rec & ->).
    { destruct (fst (ge _ _)) as [[]|entity];
        try (destruct Hcase as [_ ->]; eauto).
      destruct (isinstance_User entity); destruct Hcase as [Ho ->];
        [discriminate|eauto]. }
    eexists false, _, [Log lvl rec]. split; [reflexivity|]. simpl.
    repeat split; auto. discriminate.
Qed.

End MoreAttempts.

(** X1.  [send_message] returns [True] exactly when the lookup of the
    cleaned name hands back a [User] and the send to that user, in the world
    the lookup left, returns without raising; in every other case it
    returns [False]. *)
Theorem send_message_true_iff {World : Type}
    (ge : string -> World -> Py.Outcome Entity * World)
    (sm : Entity -> string -> World -> Py.Outcome unit * World)
    (username message : string) (st : Py.State World) :
  let found := ge (clean_username username) (Py.world st) in
  (fst (send_message ge sm username message st) = inr true
   <-> exists user_id,
         fst found = inr (User user_id)
         /\ fst (sm (User user_id) message (snd found)) = inr tt)
  /\ (fst (send_message ge sm username message st) = inr true
      \/ fst (send_message ge sm username message st) = inr false).
Proof.
  intros found.
  destruct (resolve_username_run ge username st) as (out & recs & Hres & Hcase).
  simpl in Hres. fold found in Hres, Hcase.
  destruct out as [user|].
  - destruct (send_message_resolved ge sm username message user _ _ Hres)
      as (b & lvl & rec & Hsend & Hsm).
    simpl in Hsend, Hsm. rewrite Hsend. simpl.
    assert (fst found = inr user /\ isinstance_User user = true) as [Hfound Huser].
    { destruct (fst found) as [[]|entity]; try (now destruct Hcase).
      destruct (isinstance_User entity) eqn:Hi; destruct Hcase as [Ho _];
        [injection Ho as ->; auto|discriminate]. }
    destruct user as [user_id| |]; try discriminate.
    split; [|destruct b; auto].
    split.
    + intros Hb. injection Hb as ->. exists user_id. split; [exact Hfound|].
      destruct (fst (sm _ _ _)) as [[]|[]]; trivial;
        destruct Hsm as (Hb & _); discriminate.
    + intros (user_id' & Hfound' & Hok).
      rewrite Hfound in Hfound'. injection Hfound' as <-.
      rewrite Hok in Hsm. now destruct Hsm as (-> & _).
  - rewrite (send_message_unresolved ge sm username message _ _ Hres). simpl.
    split; [|auto]. split; [discriminate|].
    intros (user_id & Hfound & _). rewrite Hfound in Hcase. simpl in Hcase.
    now destruct Hcase.
Qed.

(** X2.  When the handle resolves and the send capability raises anything
    but a flood wait, [send_message] returns [False] after that one send
    call, with no second send and no suspension, and logs one error record:
    the too-many-requests record for [PeerFloodError], otherwise the
    send-failed record that carries the username as given and the
    exception. *)
Theorem failed_send_reported_not_retried {World : Type}
    (ge : string -> World -> Py.Outcome Entity * World)
    (sm : Entity -> string -> World -> Py.Outcome unit * World)
    (username message : string) (user : Entity) (e : PyException)
    (st st1 : Py.State World) :
  resolve_username ge username st = (inr (Some user), st1) ->
  fst (sm user message (Py.world st1)) = inl e ->
  (forall seconds, e <> FloodWaitError seconds) ->
  send_message ge sm username message st
  = (inr false,
     Py.mkState (snd (sm user message (Py.world st1)))
                (Py.trace st1
                 ++ [SendMessageCall user message;
                     Log ERROR (match e with
                                | PeerFloodError => TooManyRequestsRecord
                                | _ => SendFailedRecord username e
                                end)])).
Proof.
  intros Hres Hraise Hnot_flood.
  destruct (send_message_resolved ge sm username message user st st1 Hres)
    as (b & lvl & rec & Hsend & Hcase).
  rewrite Hraise in Hcase. rewrite Hsend.
  destruct e; try (destruct Hcase as (-> & -> & ->); reflexivity).
  now destruct (Hnot_flood seconds).
Qed.

Lemma failed_send_reported_not_retried_witness :
  resolve_username Stub.lookup "bob" Stub.start
  = (inr (Some (User 2)), Py.mkState 0%nat [GetEntityCall "bob"])
  /\ fst (Stub.deliver 10 30 (User 2) "hi" 0%nat) = inl PeerFloodError
  /\ (forall seconds, PeerFloodError <> FloodWaitError seconds)
  /\ send_message Stub.lookup (Stub.deliver 10 30) "bob" "hi" Stub.start
     = (inr false,
        Py.mkState 0%nat
          [GetEntityCall "bob"; SendMessageCall (User 2) "hi";
           Log ERROR TooManyRequestsRecord]).
Proof.
  assert (forall seconds, PeerFloodError <> FloodWaitError seconds) as Hnot
    by (intros seconds; discriminate).
  split; [reflexivity|]. split; [reflexivity|]. split; [exact Hnot|].
  exact (failed_send_reported_not_retried Stub.lookup (Stub.deliver 10 30)
           "bob" "hi" (User 2) PeerFloodError Stub.start
           (Py.mkState 0%nat [GetEntityCall "bob"]) eq_refl eq_refl Hnot).
Defined.

(** ** Further properties of the batch *)

Lemma one_attempt_sends (message username : string) (segment : list Event) :
  one_attempt message username segment ->
  (List.length (filter is_send segment) <= 1)%nat.
Proof.
  intros (tail & -> & _ & [Hnone | (user & Hone)]); simpl.
  - rewrite Hnone. simpl. lia.
  - rewrite Hone. simpl. lia.
Qed.

Lemma filter_pause_lookup (delay : Z) : filter is_lookup (pause delay) = [].
Proof. unfold pause. now destruct (delay >? 0). Qed.

Lemma filter_pause_send (delay : Z) : filter is_send (pause delay) = [].
Proof. unfold pause. now destruct (delay >? 0). Qed.

Lemma lookups_of_attempts (message : string) (delay : Z)
    (usernames : list string) (segments : list (list Event)) :
  Forall2 (one_attempt message) usernames segments ->
  filter is_lookup (List.concat (map (fun seg => seg ++ pause delay) segments))
  = map (fun username => GetEntityCall (clean_username username)) usernames.
Proof.
  induction 1 as [|u seg us segs (tail & -> & Hlook & _) _ IH]; simpl;
    [reflexivity|].
  now rewrite !filter_app, Hlook, filter_pause_lookup, IH.
Qed.

Lemma sends_bounded (message : string) (usernames : list string)
    (segments : list (list Event)) :
  Forall2 (one_attempt message) usernames segments ->
  (List.length (filter is_send (List.concat segments))
   <= List.length usernames)%nat.
Proof.
  induction 1 as [|u seg us segs Hseg _ IH]; simpl; [lia|].
  rewrite filter_app, length_app.
  pose proof (one_attempt_sends _ _ _ Hseg). lia.
Qed.

Section MoreBatch.

Context {World : Type}.
Variable ge : string -> World -> Py.Outcome Entity * World.
Variable sm : Entity -> string -> World -> Py.Outcome unit * World.

(** The calls of the loop, for a delay that [asyncio.sleep] accepts: one
    attempt per username, in order, each with its lookup and at most one
    send; the sends are at least the usernames newly recorded as
    successful. *)
Lemma bulk_loop_calls (message : string) (delay : Z) (usernames : list string) :
  delay < float_limit ->
  forall (results : Results) (st : Py.State World),
  exists final st' segments,
    bulk_loop ge sm usernames message delay results st = (inr final, st')
    /\ Py.trace st'
       = Py.trace st
         ++ List.concat (map (fun seg => seg ++ pause delay) segments)
    /\ Forall2 (one_attempt message) usernames segments
    /\ (List.length (successful final)
        <= List.length (successful results)
           + List.length (filter is_send (List.concat segments)))%nat.
Proof.
  intros Hdelay.
  induction usernames as [|u rest IH]; intros results st.
  - exists results, st, []. simpl. rewrite app_nil_r.
    repeat split; [constructor|lia].
  - destruct (send_message_calls ge sm u message st)
      as (b & st1 & tail & Hsend & Htrace & Hlook & _ & Hsends & Hone).
    simpl. unfold Py.bind at 1.
    rewrite (bulk_step_run ge sm u message delay results b st st1 Hdelay Hsend).
    match goal with
    | |- context [bulk_loop ge sm rest message delay ?r ?s] =>
        destruct (IH r s) as (final & st' & segs & Hloop & Htr & Hseg & Hs)
    end.
    rewrite Hloop.
    exists final, st', ((GetEntityCall (clean_username u) :: tail) :: segs).
    split; [reflexivity|].
    split.
    { rewrite Htr. simpl. rewrite Htrace, <- !app_assoc. reflexivity. }
    split.
    { constructor; [now exists tail | assumption]. }
    simpl. rewrite filter_app, length_app.
    destruct b; simpl in Hs; rewrite ?length_app in Hs; simpl in Hs |- *.
    + specialize (Hone eq_refl). lia.
    + lia.
Qed.

(** Running the loop over [first ++ second] is running it over [first] and
    then, from the results and the state reached, over [second]. *)
Lemma bulk_loop_app (message : string) (delay : Z) (first second : list string) :
  forall (results : Results) (st : Py.State World),
    bulk_loop ge sm (first ++ second) message delay results st
    = (let (r, st1) := bulk_loop ge sm first message delay results st in
       match r with
       | inr results1 => bulk_loop ge sm second message delay results1 st1
       | inl e => (inl e, st1)
       end).
Proof.
  induction first as [|u rest IH]; intros results st; simpl.
  - reflexivity.
  - unfold Py.bind.
    destruct (bulk_step ge sm u message delay results st) as [[e|r1] st1];
      [reflexivity|].
    apply IH.
Qed.

(** The batch, for a delay that [asyncio.sleep] accepts, by its attempts. *)
Lemma send_bulk_messages_calls (usernames : list string) (message : string)
    (delay : Z) (st : Py.State World) :
  delay < float_limit ->
  exists results st' segments,
    send_bulk_messages ge sm usernames message delay st = (inr results, st')
    /\ Py.trace st'
       = Py.trace st
         ++ List.concat (map (fun seg => seg ++ pause delay) segments)
         ++ [Log INFO (BulkCompleteRecord (List.length (successful results))
                                          (total results))]
    /\ Forall2 (one_attempt message) usernames segments
    /\ (List.length (successful results)
        <= List.length (filter is_send (List.concat segments)))%nat.
Proof.
  intros Hdelay.
  destruct (bulk_loop_calls message delay usernames Hdelay
              (mkResults [] [] (List.length usernames)) st)
    as (final & st' & segs & Hloop & Htr & Hseg & Hs).
  unfold send_bulk_messages, Py.bind at 1. rewrite Hloop.
  unfold logger, Py.bind, Py.emit, Py.ret.
  eexists final, _, segs. split; [reflexivity|].
  simpl. rewrite Htr, <- app_assoc. auto.
Qed.

End MoreBatch.

(** X3.  With a delay that [asyncio.sleep] accepts, a batch looks every
    username up exactly once, in the order of the input and under its
    cleaned name, whatever the earlier attempts gave: a failure does not
    end the batch, and a username that occurs twice is looked up twice. *)
Theorem bulk_looks_up_every_username {World : Type}
    (ge : string -> World -> Py.Outcome Entity * World)
    (sm : Entity -> string -> World -> Py.Outcome unit * World)
    (usernames : list string) (message : string) (delay : Z)
    (st : Py.State World) :
  delay < float_limit ->
  exists results st' events,
    send_bulk_messages ge sm usernames message delay st = (inr results, st')
    /\ Py.trace st' = Py.trace st ++ events
    /\ filter is_lookup events
       = map (fun username => GetEntityCall (clean_username username)) usernames.
Proof.
  intros Hdelay.
  destruct (send_bulk_messages_calls ge sm usernames message delay st Hdelay)
    as (results & st' & segs & Hrun & Htr & Hseg & _).
  eexists results, st', _. split; [exact Hrun|]. split; [exact Htr|].
  rewrite filter_app, (lookups_of_attempts message delay _ _ Hseg). simpl.
  now rewrite app_nil_r.
Qed.

Lemma bulk_looks_up_every_username_witness :
  0 < float_limit
  /\ exists results st' events,
       send_bulk_messages Stub.lookup (Stub.deliver 10 30)
         ["ghost"; "@alice"; "ghost"] "hi" 0 Stub.start
       = (inr results, st')
       /\ Py.trace st' = Py.trace Stub.start ++ events
       /\ filter is_lookup events
          = map (fun username => GetEntityCall (clean_username username))
              ["ghost"; "@alice"; "ghost"].
Proof.
  split; [exact float_limit_positive|].
  exact (bulk_looks_up_every_username Stub.lookup (Stub.deliver 10 30)
           ["ghost"; "@alice"; "ghost"] "hi" 0 Stub.start
           float_limit_positive).
Defined.



(** ** Computations that only add to the trace *)

Section AppendsOnly.

Context {World : Type}.

Lemma appends_only_ret {A} (a : A) : appends_only (World := World) (Py.ret a).
Proof. intros w t. unfold Py.ret. simpl. now rewrite app_nil_r. Qed.

Lemma appends_only_raise {A} (e : PyException) :
  appends_only (World := World) (A := A) (Py.raise e).
Proof. intros w t. unfold Py.raise. simpl. now rewrite app_nil_r. Qed.

Lemma appends_only_emit (ev : Event) :
  appends_only (World := World) (Py.emit ev).
Proof. intros w t. reflexivity. Qed.

Lemma appends_only_call {A} (ev : Event)
    (f : World -> Py.Outcome A * World) :
  appends_only (Py.call ev f).
Proof. intros w t. unfold Py.call. simpl. now destruct (f w). Qed.

Lemma appends_only_bind {A B} (m : Py.M World A) (k : A -> Py.M World B) :
  appends_only m -> (forall a, appends_only (k a)) ->
  appends_only (Py.bind m k).
Proof.
  intros Hm Hk w t. unfold Py.bind. rewrite (Hm w t).
  destruct (m (Py.mkState w [])) as [[e|a] [w1 t1]]; simpl.
  - reflexivity.
  - rewrite (Hk a w1 (t ++ t1)), (Hk a w1 t1).
    destruct (k a (Py.mkState w1 [])) as [r [w2 t2]]. simpl.
    now rewrite app_assoc.
Qed.

Lemma appends_only_try_except {A} (body : Py.M World A)
    (handler : PyException -> Py.M World A) :
  appends_only body -> (forall e, appends_only (handler e)) ->
  appends_only (Py.try_except body handler).
Proof.
  intros Hb Hh w t. unfold Py.try_except. rewrite (Hb w t).
  destruct (body (Py.mkState w [])) as [[e|a] [w1 t1]]; simpl.
  - rewrite (Hh e w1 (t ++ t1)), (Hh e w1 t1).
    destruct (handler e (Py.mkState w1 [])) as [r [w2 t2]]. simpl.
    now rewrite app_assoc.
  - reflexivity.
Qed.

(** Two runs from the same world agree on the result, the world reached
    and the events added. *)
Lemma appends_only_same_world {A} (m : Py.M World A) (w : World)
    (t t' : list Event) :
  appends_only m ->
  exists r w1 events,
    m (Py.mkState w t) = (r, Py.mkState w1 (t ++ events))
    /\ m (Py.mkState w t') = (r, Py.mkState w1 (t' ++ events)).
Proof.
  intros Hm. rewrite (Hm w t), (Hm w t').
  destruct (m (Py.mkState w [])) as [r [w1 t1]]. simpl. eauto.
Qed.

End AppendsOnly.

Create HintDb appends discriminated.

#[export] Hint Resolve appends_only_ret appends_only_raise appends_only_emit
  appends_only_call : appends.

Ltac appends_step :=
  first
    [ apply appends_only_bind; [|intros ?]
    | apply appends_only_try_except; [|intros ?]
    | solve [auto with appends]
    | match goal with
      | |- appends_only (match ?x with _ => _ end) => destruct x
      | |- appends_only (if ?x then _ else _) => destruct x
      end ].

Section AppendsOnlySender.

Context {World : Type}.
Variable int_of_str : string -> option Z.
Variable new_client :
  string -> Z -> option string -> World -> Py.Outcome unit * World.
Variable ge : string -> World -> Py.Outcome Entity * World.
Variable sm : Entity -> string -> World -> Py.Outcome unit * World.

Lemma appends_only_resolve_username (username : string) :
  appends_only (resolve_username ge username).
Proof.
  unfold resolve_username, get_entity, logger. repeat appends_step.
Qed.

Lemma appends_only_send_message (username message : string) :
  appends_only (send_message ge sm username message).
Proof.
  unfold send_message. apply appends_only_bind;
    [apply appends_only_resolve_username|].
  intros [user|]; [|auto with appends].
  unfold client_send, logger. repeat appends_step.
Qed.

Lemma appends_only_bulk_step (username message : string) (delay : Z)
    (results : Results) :
  appends_only (bulk_step ge sm username message delay results).
Proof.
  unfold bulk_step. apply appends_only_bind;
    [apply appends_only_send_message|].
  intros b. unfold asyncio_sleep. repeat appends_step.
Qed.

Lemma appends_only_bulk_loop (message : string) (delay : Z)
    (usernames : list string) :
  forall results,
    appends_only (bulk_loop ge sm usernames message delay results).
Proof.
  induction usernames as [|u rest IH]; intros results; simpl.
  - auto with appends.
  - apply appends_only_bind; [apply appends_only_bulk_step|]. apply IH.
Qed.

Lemma appends_only_send_bulk_messages (usernames : list string)
    (message : string) (delay : Z) :
  appends_only (send_bulk_messages ge sm usernames message delay).
Proof.
  unfold send_bulk_messages. apply appends_only_bind;
    [apply appends_only_bulk_loop|].
  intros results. unfold logger. repeat appends_step.
Qed.

Lemma appends_only_TelegramSender_init (environ : Environ) :
  appends_only (TelegramSender_init int_of_str new_client environ).
Proof.
  unfold TelegramSender_init, TelegramConfig_init, _validate_credentials,
    get_api_id, int_, logger.
  repeat appends_step.
Qed.

End AppendsOnlySender.

Section BatchSplit.

Context {World : Type}.
Variable ge : string -> World -> Py.Outcome Entity * World.
Variable sm : Entity -> string -> World -> Py.Outcome unit * World.

(** The loop never reads the results it was given: it puts what it
    records behind them. *)
Lemma bulk_loop_results_frame (message : string) (delay : Z)
    (usernames : list string) :
  forall (results : Results) (st : Py.State World),
    bulk_loop ge sm usernames message delay results st
    = (let (out, st') :=
         bulk_loop ge sm usernames message delay (mkResults [] [] 0) st in
       (match out with
        | inl e => inl e
        | inr found =>
            inr (mkResults (successful results ++ successful found)
                           (failed results ++ failed found)
                           (total results))
        end, st')).
Proof.
  induction usernames as [|u rest IH]; intros results st.
  - simpl. unfold Py.ret. rewrite !app_nil_r. now destruct results.
  - destruct (send_message_shape ge sm u message st)
      as (b & st1 & _ & _ & _ & Hsend & _).
    rewrite !(bulk_loop_goes_on ge sm u message delay rest _ b st st1 Hsend).
    unfold Py.bind.
    destruct ((if delay >? 0 then asyncio_sleep delay else Py.ret tt) st1)
      as [[e|[]] st2]; [reflexivity|].
    match goal with
    | |- bulk_loop _ _ _ _ _ ?r ?s = _ => rewrite (IH r s)
    end.
    match goal with
    | |- _ = (let (_, _) := bulk_loop _ _ _ _ _ ?r ?s in _) =>
        rewrite (IH r s)
    end.
    destruct (bulk_loop ge sm rest message delay (mkResults [] [] 0) _)
      as [[e|found] st'']; [reflexivity|].
    destruct b; simpl; now rewrite <- !app_assoc.
Qed.

End BatchSplit.
(** X5.  Splitting a batch in two changes neither the deliveries nor the
    tally: when the batch over [first] returns [r1] and the batch over
    [second], run from the state the first one left, returns [r2], the
    batch over [first ++ second] returns the two lists of [r1] followed by
    those of [r2], the sum of the totals, and leaves the session in the same
    state as the second batch. *)
Theorem bulk_of_concatenation {World : Type}
    (ge : string -> World -> Py.Outcome Entity * World)
    (sm : Entity -> string -> World -> Py.Outcome unit * World)
    (first second : list string) (message : string) (delay : Z)
    (st st1 st2 : Py.State World) (r1 r2 : Results) :
  send_bulk_messages ge sm first message delay st = (inr r1, st1) ->
  send_bulk_messages ge sm second message delay st1 = (inr r2, st2) ->
  exists st',
    send_bulk_messages ge sm (first ++ second) message delay st
    = (inr (mkResults (successful r1 ++ successful r2)
                      (failed r1 ++ failed r2)
                      (total r1 + total r2)), st')
    /\ Py.world st' = Py.world st2.
Proof.
  intros Hfirst Hsecond.
  unfold send_bulk_messages, Py.bind in *.
  rewrite bulk_loop_app.
  rewrite bulk_loop_results_frame in Hfirst |- *.
  destruct (bulk_loop ge sm first message delay (mkResults [] [] 0) st)
    as [[e|found1] [w1 t1]]; [discriminate|].
  py_run. injection Hfirst as <- <-.
  rewrite bulk_loop_results_frame in Hsecond |- *.
  destruct (appends_only_same_world
              (bulk_loop ge sm second message delay (mkResults [] [] 0))
              w1 t1
              (t1 ++ [Log INFO (BulkCompleteRecord (List.length (successful found1))
                                                   (List.length first))])
              (appends_only_bulk_loop ge sm message delay second _))
    as (out & w2 & events & Hrun & Hrun').
  simpl in Hsecond. rewrite Hrun' in Hsecond. rewrite Hrun.
  destruct out as [e|found2]; [discriminate|].
  injection Hsecond as <- <-. simpl.
  eexists. split; [rewrite length_app; reflexivity | reflexivity].
Qed.

(** ** Further properties of normalisation and configuration *)

Lemma clean_username_fixed (s : string) :
  (forall rest, s <> String "@" rest) -> clean_username s = s.
Proof.
  destruct s as [|c rest]; [reflexivity|]. intros Hs.
  apply clean_username_other. destruct (Ascii.eqb_spec c "@"); [|reflexivity].
  subst c. now destruct (Hs rest).
Qed.

Lemma clean_username_markers (n : nat) : clean_username (markers n) = "".
Proof. induction n; [reflexivity|exact IHn]. Qed.

(** X6.  Cleaning is idempotent, so resolving a handle that was already
    cleaned does what resolving the raw handle does; and a handle made of
    marker characters only is looked up as the empty name: nothing rejects
    it before the lookup. *)
Theorem clean_username_idempotent {World : Type}
    (ge : string -> World -> Py.Outcome Entity * World)
    (username : string) (n : nat) (st : Py.State World) :
  clean_username (clean_username username) = clean_username username
  /\ resolve_username ge (clean_username username) st
     = resolve_username ge username st
  /\ exists out records,
       resolve_username ge (markers n) st
       = (inr out,
          Py.mkState (snd (ge "" (Py.world st)))
                     (Py.trace st ++ GetEntityCall "" :: records)).
Proof.
  assert (clean_username (clean_username username) = clean_username username)
    as Hidem by (apply clean_username_fixed, clean_username_no_marker).
  split; [exact Hidem|]. split.
  - unfold resolve_username. now rewrite Hidem.
  - destruct (resolve_username_run ge (markers n) st)
      as (out & recs & Hres & _).
    simpl in Hres. rewrite clean_username_markers in Hres. eauto.
Qed.

(** X7.  [TelegramConfig()] succeeds exactly when API_ID, API_HASH and
    PHONE_NUMBER are all set and not empty; it then holds their texts as
    they are (API_ID is not checked to be a number) and, for the session
    name, the text of SESSION_NAME when that is set, else
    ['telegram_session'].  Either way it has no other effect. *)
Theorem TelegramConfig_init_succeeds_iff {World : Type}
    (environ : Environ) (st : Py.State World) :
  ((forall name, In name required_credentials -> truthy (environ name) = true)
   <-> fst (TelegramConfig_init environ st)
       = inr (mkConfig (environ "API_ID") (environ "API_HASH")
                       (environ "PHONE_NUMBER")
                       (match environ "SESSION_NAME" with
                        | Some name => name
                        | None => "telegram_session"
                        end)))
  /\ snd (TelegramConfig_init environ st) = st.
Proof.
  rewrite TelegramConfig_init_run. split.
  - split.
    + intros Hall. now rewrite (none_missing environ Hall).
    + intros Hok name Hin.
      destruct (truthy (environ name)) eqn:Htruthy; [reflexivity|].
      assert (filter (fun name => negb (truthy (environ name)))
                required_credentials <> []) as Hne
        by (apply some_missing; eauto).
      destruct (filter _ required_credentials); [congruence|discriminate].
  - now destruct (filter _ required_credentials).
Qed.

(** X8.  [get_api_id] returns the integer that the text of API_ID denotes,
    and in every other case, an unset API_ID included, raises exactly
    [ValueError('API_ID must be a valid integer')], never a [TypeError]; it
    has no other effect. *)
Theorem get_api_id_value_or_ValueError {World : Type}
    (int_of_str : string -> option Z) (self : TelegramConfig)
    (st : Py.State World) :
  snd (get_api_id int_of_str self st) = st
  /\ (forall n,
        fst (get_api_id int_of_str self st) = inr n
        <-> exists text, api_id self = Some text /\ int_of_str text = Some n)
  /\ ((forall text n, api_id self = Some text -> int_of_str text <> Some n) ->
      fst (get_api_id int_of_str self st)
      = inl (ValueError "API_ID must be a valid integer")).
Proof.
  unfold get_api_id, int_, Py.try_except, Py.ret, Py.raise.
  destruct (api_id self) as [text|]; simpl.
  - destruct (int_of_str text) as [n|] eqn:Hparse; simpl.
    + repeat split.
      * intros Hn. injection Hn as <-. eauto.
      * intros (text' & Htext & Hn). injection Htext as <-. congruence.
      * intros Hnone. now destruct (Hnone text n eq_refl).
    + repeat split; try discriminate.
      intros (text' & Htext & Hn). injection Htext as <-. congruence.
  - repeat split; try discriminate. now intros (text & Htext & _).
Qed.

Section MoreStartup.

Context {World : Type}.
Variable int_of_str : string -> option Z.
Variable new_client :
  string -> Z -> option string -> World -> Py.Outcome unit * World.

(** What [TelegramSender.__init__] does once the configuration is built
    and the API identifier read. *)
Lemma TelegramSender_init_run (environ : Environ) (text : string) (n : Z)
    (st : Py.State World) :
  (forall name, In name required_credentials -> truthy (environ name) = true) ->
  environ "API_ID" = Some text -> int_of_str text = Some n ->
  let session := getenv_default environ "SESSION_NAME" "telegram_session" in
  let built := NewClient session n (environ "API_HASH") in
  TelegramSender_init int_of_str new_client environ st
  = match new_client session n (environ "API_HASH") (Py.world st) with
    | (inr _, w') =>
        (inr (mkConfig (environ "API_ID") (environ "API_HASH")
                       (environ "PHONE_NUMBER") session),
         Py.mkState w' (Py.trace st ++ [built]))
    | (inl e, w') =>
        (inl e,
         Py.mkState w' (Py.trace st ++ [built; Log ERROR (InitFailedRecord e)]))
    end.
Proof.
  intros Hall Hid Hparse session built.
  unfold TelegramSender_init, Py.try_except, Py.bind at 1.
  rewrite TelegramConfig_init_run, (none_missing environ Hall).
  unfold Py.bind at 1, Py.ret at 1. unfold Py.bind at 1.
  unfold get_api_id, int_, Py.try_except. simpl. rewrite Hid, Hparse.
  py_run. fold session. fold built.
  destruct (new_client session n (environ "API_HASH") (Py.world st))
    as [[e|[]] w']; simpl; [|reflexivity].
  now rewrite <- app_assoc.
Qed.

End MoreStartup.

(** X9.  With the three credentials set and not empty and an API_ID that
    denotes the integer n, [TelegramSender()] calls the client constructor
    once, with the session name, n and the API hash.  When the constructor
    returns, start-up returns the configuration and logs nothing; when it
    raises, start-up logs the exception once and raises it again. *)
Theorem TelegramSender_init_builds_client {World : Type}
    (int_of_str : string -> option Z)
    (new_client : string -> Z -> option string -> World -> Py.Outcome unit * World)
    (environ : Environ) (text : string) (n : Z) (st : Py.State World) :
  (forall name, In name required_credentials -> truthy (environ name) = true) ->
  environ "API_ID" = Some text -> int_of_str text = Some n ->
  let session :=
    match environ "SESSION_NAME" with
    | Some name => name
    | None => "telegram_session"
    end in
  let built := NewClient session n (environ "API_HASH") in
  let answer := new_client session n (environ "API_HASH") (Py.world st) in
  (fst answer = inr tt ->
   TelegramSender_init int_of_str new_client environ st
   = (inr (mkConfig (environ "API_ID") (environ "API_HASH")
                    (environ "PHONE_NUMBER") session),
      Py.mkState (snd answer) (Py.trace st ++ [built])))
  /\ (forall e,
        fst answer = inl e ->
        TelegramSender_init int_of_str new_client environ st
        = (inl e,
           Py.mkState (snd answer)
                      (Py.trace st ++ [built; Log ERROR (InitFailedRecord e)]))).
Proof.
  intros Hall Hid Hparse session built answer.
  pose proof (TelegramSender_init_run int_of_str new_client environ text n st
                Hall Hid Hparse) as Hrun.
  cbv zeta in Hrun. unfold getenv_default in Hrun.
  fold session in Hrun. fold answer in Hrun. fold built in Hrun.
  destruct answer as [[e|[]] w']; simpl; split; intros; try discriminate;
    try congruence.
Qed.

(** ** The command line: what a computation adds to the trace *)

Section AddsOnly.

Context {World : Type}.
Variable allowed : HostEvent -> bool.

Lemma adds_only_ret {A} (a : A) : adds_only (World := World) allowed (Host.ret a).
Proof. intros st. exists []. simpl. now rewrite app_nil_r. Qed.

Lemma adds_only_raise {A} (e : PyException) :
  adds_only (World := World) (A := A) allowed (Host.raise e).
Proof. intros st. exists []. simpl. now rewrite app_nil_r. Qed.

Lemma adds_only_emit (ev : HostEvent) :
  allowed ev = true -> adds_only (World := World) allowed (Host.emit ev).
Proof. intros Hev st. exists [ev]. simpl. now rewrite Hev. Qed.

Lemma adds_only_call {A} (ev : HostEvent) (f : World -> A * World) :
  allowed ev = true -> adds_only allowed (Host.call ev f).
Proof.
  intros Hev st. exists [ev]. unfold Host.call.
  destruct (f (Host.world st)). simpl. now rewrite Hev.
Qed.

Lemma adds_only_call_raising {A} (ev : HostEvent)
    (f : World -> Py.Outcome A * World) :
  allowed ev = true -> adds_only allowed (Host.call_raising ev f).
Proof.
  intros Hev st. exists [ev]. unfold Host.call_raising.
  destruct (f (Host.world st)). simpl. now rewrite Hev.
Qed.

Lemma adds_only_lift {A} (m : Py.M World A) :
  (forall ev, allowed (Core ev) = true) -> adds_only allowed (Host.lift m).
Proof.
  intros Hcore st. unfold Host.lift.
  destruct (m (Py.mkState (Host.world st) [])) as [r st']. simpl.
  eexists. split; [reflexivity|].
  apply forallb_forall. intros ev Hin. apply in_map_iff in Hin.
  destruct Hin as (ev' & <- & _). apply Hcore.
Qed.

Lemma adds_only_bind {A B} (m : Host.M World A) (k : A -> Host.M World B) :
  adds_only allowed m -> (forall a, adds_only allowed (k a)) ->
  adds_only allowed (Host.bind m k).
Proof.
  intros Hm Hk st. unfold Host.bind.
  destruct (Hm st) as (evs & Htr & Hall).
  destruct (m st) as [[e|a] st1]; simpl in *; [eauto|].
  destruct (Hk a st1) as (evs2 & Htr2 & Hall2).
  exists (evs ++ evs2). rewrite Htr2, Htr, app_assoc, forallb_app, Hall, Hall2.
  auto.
Qed.

Lemma adds_only_try_except {A} (body : Host.M World A)
    (handler : PyException -> Host.M World A) :
  adds_only allowed body -> (forall e, adds_only allowed (handler e)) ->
  adds_only allowed (Host.try_except body handler).
Proof.
  intros Hb Hh st. unfold Host.try_except.
  destruct (Hb st) as (evs & Htr & Hall).
  destruct (body st) as [[e|a] st1]; simpl in *; [|eauto].
  destruct (Hh e st1) as (evs2 & Htr2 & Hall2).
  exists (evs ++ evs2). rewrite Htr2, Htr, app_assoc, forallb_app, Hall, Hall2.
  auto.
Qed.

End AddsOnly.

Lemma forallb_not_disconnect (events : list HostEvent) :
  forallb not_disconnect events = true -> filter is_disconnect events = [].
Proof.
  induction events as [|ev rest IH]; simpl; [reflexivity|].
  unfold not_disconnect at 1. destruct (is_disconnect ev); simpl;
    [discriminate|exact IH].
Qed.

Lemma forallb_not_core (events : list HostEvent) :
  forallb not_core events = true -> filter is_core events = [].
Proof.
  induction events as [|ev rest IH]; simpl; [reflexivity|].
  unfold not_core at 1. destruct (is_core ev); simpl;
    [discriminate|exact IH].
Qed.

Ltac adds_step :=
  first
    [ apply adds_only_bind; [|intros ?]
    | apply adds_only_try_except; [|intros ?]
    | apply adds_only_ret
    | apply adds_only_raise
    | apply adds_only_emit; reflexivity
    | apply adds_only_call; reflexivity
    | apply adds_only_call_raising; reflexivity
    | apply adds_only_lift; intros ?; reflexivity
    | match goal with
      | |- adds_only _ (match ?x with _ => _ end) => destruct x
      | |- adds_only _ (if ?x then _ else _) => destruct x
      end ].

(** ** The command line: connect, the modes, main *)

Section CommandLineFacts.

Context {World : Type}.
Variable int_of_str : string -> option Z.
Variable new_client :
  string -> Z -> option string -> World -> Py.Outcome unit * World.
Variable ge : string -> World -> Py.Outcome Entity * World.
Variable sm : Entity -> string -> World -> Py.Outcome unit * World.
Variable client_start : option string -> World -> Py.Outcome unit * World.
Variable client_get_me : World -> Py.Outcome (option Me) * World.
Variable client_disconnect : World -> Py.Outcome unit * World.
Variable console_input : Prompt -> World -> Typed * World.
Variable open_lines : string -> World -> Opened * World.
Variable strip : string -> string.
Variable lower : string -> string.

Lemma turn_never_disconnects :
  adds_only not_disconnect
    (interactive_turn ge sm console_input strip lower).
Proof.
  unfold interactive_turn, with_input, print. repeat adds_step.
Qed.

Lemma loop_never_disconnects (fuel : nat) :
  adds_only not_disconnect
    (interactive_loop ge sm console_input strip lower fuel).
Proof.
  induction fuel as [|fuel IH]; simpl.
  - apply adds_only_ret.
  - apply adds_only_bind; [apply turn_never_disconnects|].
    intros [|]; [apply adds_only_ret|exact IH].
Qed.

Lemma dispatch_never_disconnects (fuel : nat) (args : Args) :
  adds_only not_disconnect
    (dispatch ge sm console_input open_lines strip lower fuel args).
Proof.
  unfold dispatch. destruct (arg_interactive args).
  - unfold interactive_mode, print.
    apply adds_only_bind; [|intros [|]; apply adds_only_ret].
    do 2 (apply adds_only_bind; [apply adds_only_emit; reflexivity|intros _]).
    apply loop_never_disconnects.
  - unfold bulk_mode, single_mode, print. repeat adds_step.
Qed.

(** Once the sender is built and connected, [main] is the dispatch on the
    arguments with [disconnect] as its [finally]. *)
Lemma main_after_start (fuel : nat) (environ : Environ) (args : Args)
    (config : TelegramConfig) (st st0 st1 : Host.State World) :
  Host.lift (TelegramSender_init int_of_str new_client environ) st
  = (inr config, st0) ->
  connect client_start client_get_me config st0 = (inr tt, st1) ->
  main int_of_str new_client ge sm client_start client_get_me
       client_disconnect console_input open_lines strip lower
       fuel environ args st
  = Host.try_finally
      (dispatch ge sm console_input open_lines strip lower fuel args)
      (disconnect client_disconnect) st1.
Proof.
  intros Hinit Hconnect.
  unfold main, Host.bind at 1, Host.try_except at 1, Host.bind at 1.
  rewrite Hinit. unfold Host.bind at 1. rewrite Hconnect. reflexivity.
Qed.

(** When building the sender or connecting raises, [main] logs it and
    returns 1 there and then. *)
Lemma main_start_fails (fuel : nat) (environ : Environ) (args : Args)
    (e : PyException) (st st1 : Host.State World) :
  Host.bind (Host.lift (TelegramSender_init int_of_str new_client environ))
            (fun config => connect client_start client_get_me config) st
  = (inl e, st1) ->
  main int_of_str new_client ge sm client_start client_get_me
       client_disconnect console_input open_lines strip lower
       fuel environ args st
  = (inr (Some 1),
     Host.mkState (Host.world st1)
       (Host.trace st1 ++ [HostLog ERROR (InitializeFailedRecord e)])).
Proof.
  intros Hstart.
  unfold main, Host.bind at 1, Host.try_except at 1.
  unfold Host.bind at 1 in Hstart. unfold Host.bind at 1.
  destruct (Host.lift _ st) as [[e0|config] st0].
  - injection Hstart as <- <-. reflexivity.
  - unfold Host.bind at 1. rewrite Hstart. reflexivity.
Qed.

(** What [disconnect] does, by the answer of the session. *)
Lemma disconnect_run (st : Host.State World) :
  disconnect client_disconnect st
  = match client_disconnect (Host.world st) with
    | (inr _, w') =>
        (inr tt,
         Host.mkState w'
           (Host.trace st ++ [DisconnectCall; HostLog INFO DisconnectedRecord]))
    | (inl e, w') =>
        (inl e, Host.mkState w' (Host.trace st ++ [DisconnectCall]))
    end.
Proof.
  unfold disconnect, Host.bind, Host.call_raising, host_logger, Host.emit.
  destruct (client_disconnect (Host.world st)) as [[e|[]] w']; simpl;
    [reflexivity|].
  now rewrite <- app_assoc.
Qed.

End CommandLineFacts.

Section CommandLineProperties.

Context {World : Type}.
Variable int_of_str : string -> option Z.
Variable new_client :
  string -> Z -> option string -> World -> Py.Outcome unit * World.
Variable ge : string -> World -> Py.Outcome Entity * World.
Variable sm : Entity -> string -> World -> Py.Outcome unit * World.
Variable client_start : option string -> World -> Py.Outcome unit * World.
Variable client_get_me : World -> Py.Outcome (option Me) * World.
Variable client_disconnect : World -> Py.Outcome unit * World.
Variable console_input : Prompt -> World -> Typed * World.
Variable open_lines : string -> World -> Opened * World.
Variable strip : string -> string.
Variable lower : string -> string.


(** X11.  When a required credential is unset or empty, [main] returns
    exit code 1 whatever the arguments: the only events are the two error
    records, so nothing was started, typed, opened, looked up, sent or
    disconnected. *)
Theorem main_exits_1_on_missing_credentials (fuel : nat) (environ : Environ)
    (args : Args) (st : Host.State World) :
  (exists name, In name required_credentials /\ truthy (environ name) = false) ->
  let e :=
    ValueError
      (missing_message
         (filter (fun name => negb (truthy (environ name)))
                 required_credentials)) in
  main int_of_str new_client ge sm client_start client_get_me
       client_disconnect console_input open_lines strip lower
       fuel environ args st
  = (inr (Some 1),
     Host.mkState (Host.world st)
       (Host.trace st
        ++ [Core (Log ERROR (InitFailedRecord e));
            HostLog ERROR (InitializeFailedRecord e)])).
Proof.
  intros Hmissing e. apply some_missing in Hmissing.
  assert (TelegramConfig_init environ (Py.mkState (Host.world st) [])
          = (inl e, Py.mkState (Host.world st) [])) as Hcfg.
  { rewrite TelegramConfig_init_run. subst e.
    now destruct (filter _ required_credentials). }
  pose proof (TelegramSender_init_reraises int_of_str new_client environ e _ Hcfg)
    as Hinit.
  rewrite (main_start_fails int_of_str new_client ge sm client_start
             client_get_me client_disconnect console_input open_lines strip
             lower fuel environ args e st
             (Host.mkState (Host.world st)
                (Host.trace st ++ [Core (Log ERROR (InitFailedRecord e))]))).
  - simpl. now rewrite <- app_assoc.
  - unfold Host.bind, Host.lift. rewrite Hinit. reflexivity.
Qed.

(** X12.  When the sender is built but [start] raises, [main] returns exit
    code 1 after the two error records of the failure, and does not call
    [disconnect]. *)
Theorem main_exits_1_when_connect_fails (fuel : nat) (environ : Environ)
    (args : Args) (config : TelegramConfig) (e : PyException)
    (st st0 : Host.State World) :
  Host.lift (TelegramSender_init int_of_str new_client environ) st
  = (inr config, st0) ->
  fst (client_start (get_phone_number config) (Host.world st0)) = inl e ->
  main int_of_str new_client ge sm client_start client_get_me
       client_disconnect console_input open_lines strip lower
       fuel environ args st
  = (inr (Some 1),
     Host.mkState
       (snd (client_start (get_phone_number config) (Host.world st0)))
       (Host.trace st0
        ++ [StartCall (get_phone_number config);
            HostLog ERROR (ConnectFailedRecord e);
            HostLog ERROR (InitializeFailedRecord e)])).
Proof.
  intros Hinit Hstart.
  assert (connect client_start client_get_me config st0
          = (inl e,
             Host.mkState
               (snd (client_start (get_phone_number config) (Host.world st0)))
               (Host.trace st0
                ++ [StartCall (get_phone_number config);
                    HostLog ERROR (ConnectFailedRecord e)]))) as Hconnect.
  { unfold connect, Host.try_except, Host.bind, Host.call_raising,
      host_logger, Host.emit, Host.raise.
    destruct (client_start _ _) as [[e0|[]] w1]; simpl in *;
      [|discriminate].
    injection Hstart as ->. now rewrite <- app_assoc. }
  assert (Host.bind
            (Host.lift (TelegramSender_init int_of_str new_client environ))
            (fun config => connect client_start client_get_me config) st
          = (inl e,
             Host.mkState
               (snd (client_start (get_phone_number config) (Host.world st0)))
               (Host.trace st0
                ++ [StartCall (get_phone_number config);
                    HostLog ERROR (ConnectFailedRecord e)]))) as Hboth.
  { unfold Host.bind at 1. rewrite Hinit. exact Hconnect. }
  rewrite (main_start_fails int_of_str new_client ge sm client_start
             client_get_me client_disconnect console_input open_lines strip
             lower fuel environ args e st _ Hboth).
  simpl. now rewrite <- app_assoc.
Qed.

(** X13.  Once the sender is built and connected, every way [main] ends,
    by returning or by raising, goes through exactly one call of
    [disconnect], and that call is the last one: after it comes at most the
    record that the session was disconnected. *)
Theorem main_disconnects_last (fuel : nat) (environ : Environ) (args : Args)
    (config : TelegramConfig) (st st0 st1 st' : Host.State World)
    (r : Py.Outcome (option Z)) :
  Host.lift (TelegramSender_init int_of_str new_client environ) st
  = (inr config, st0) ->
  connect client_start client_get_me config st0 = (inr tt, st1) ->
  main int_of_str new_client ge sm client_start client_get_me
       client_disconnect console_input open_lines strip lower
       fuel environ args st = (r, st') ->
  r <> inr None ->
  exists body closing,
    Host.trace st' = Host.trace st1 ++ body ++ DisconnectCall :: closing
    /\ filter is_disconnect body = []
    /\ (closing = [] \/ closing = [HostLog INFO DisconnectedRecord]).
Proof.
  intros Hinit Hconnect Hmain Hends.
  rewrite (main_after_start int_of_str new_client ge sm client_start
             client_get_me client_disconnect console_input open_lines strip
             lower fuel environ args config st st0 st1 Hinit Hconnect)
    in Hmain.
  destruct (dispatch_never_disconnects ge sm console_input open_lines strip
              lower fuel args st1) as (body & Hbody & Hallowed).
  apply forallb_not_disconnect in Hallowed.
  unfold Host.try_finally in Hmain.
  destruct (dispatch ge sm console_input open_lines strip lower fuel args st1)
    as [out st2].
  simpl in Hbody.
  pose proof (disconnect_run client_disconnect st2) as Hrun.
  exists body.
  destruct out as [e|[code|]].
  - destruct (client_disconnect (Host.world st2)) as [[e'|[]] w'];
      rewrite Hrun in Hmain; injection Hmain as <- <-; simpl; rewrite Hbody.
    + exists []. rewrite <- app_assoc. auto.
    + exists [HostLog INFO DisconnectedRecord]. rewrite <- app_assoc. auto.
  - destruct (client_disconnect (Host.world st2)) as [[e'|[]] w'];
      rewrite Hrun in Hmain; injection Hmain as <- <-; simpl; rewrite Hbody.
    + exists []. rewrite <- app_assoc. auto.
    + exists [HostLog INFO DisconnectedRecord]. rewrite <- app_assoc. auto.
  - injection Hmain as <- <-. now destruct Hends.
Qed.

Lemma truthy_Some (text : string) : truthy (Some text) = nonempty text.
Proof. now destruct text. Qed.

Lemma disconnect_returns (st : Host.State World) :
  (forall w, fst (client_disconnect w) = inr tt) ->
  disconnect client_disconnect st
  = (inr tt,
     Host.mkState (snd (client_disconnect (Host.world st)))
       (Host.trace st ++ [DisconnectCall; HostLog INFO DisconnectedRecord])).
Proof.
  intros Hok. rewrite disconnect_run. specialize (Hok (Host.world st)).
  destruct (client_disconnect (Host.world st)) as [[e|[]] w']; simpl in *;
    [discriminate|reflexivity].
Qed.

(** X14.  In bulk mode, with a message, a delay that [asyncio.sleep]
    accepts and a file that holds at least one username, [main] returns
    exit code 0 whatever the attempts gave, also when every one of them
    failed: it opens the file, runs
    [send_bulk_messages] on the stripped non-empty lines with the given
    delay, prints the two counts and, when there are any, the failed
    usernames, and disconnects. *)
Theorem bulk_mode_exits_0_whatever_failed (fuel : nat) (environ : Environ)
    (args : Args) (config : TelegramConfig) (path message : string)
    (lines : list string) (st st0 st1 : Host.State World) :
  Host.lift (TelegramSender_init int_of_str new_client environ) st
  = (inr config, st0) ->
  connect client_start client_get_me config st0 = (inr tt, st1) ->
  arg_interactive args = false ->
  arg_bulk args = Some path -> nonempty path = true ->
  arg_message args = Some message -> nonempty message = true ->
  arg_delay args < float_limit ->
  fst (open_lines path (Host.world st1)) = Lines lines ->
  usernames_of strip lines <> [] ->
  (forall w, fst (client_disconnect w) = inr tt) ->
  exists results st2,
    send_bulk_messages ge sm (usernames_of strip lines) message (arg_delay args)
      (Py.mkState (snd (open_lines path (Host.world st1))) [])
    = (inr results, st2)
    /\ main int_of_str new_client ge sm client_start client_get_me
         client_disconnect console_input open_lines strip lower
         fuel environ args st
       = (inr (Some 0),
          Host.mkState (snd (client_disconnect (Py.world st2)))
            (Host.trace st1
             ++ [OpenCall path;
                 Print (SendingToUsers (List.length (usernames_of strip lines)))]
             ++ map Core (Py.trace st2)
             ++ [Print ResultsHeader;
                 Print (SuccessfulCount (List.length (successful results)));
                 Print (FailedCount (List.length (failed results)))]
             ++ match failed results with
                | [] => []
                | _ :: _ => [Print (FailedUsernames (join ", " (failed results)))]
                end
             ++ [DisconnectCall; HostLog INFO DisconnectedRecord])).
Proof.
  intros Hinit Hconnect Hmode Hbulk Hpath Hmessage Htext Hdelay Hopen Hnames
    Hdisc.
  destruct (send_bulk_messages_run ge sm (usernames_of strip lines) message
              (arg_delay args)
              (Py.mkState (snd (open_lines path (Host.world st1))) []) Hdelay)
    as (results & st2 & _ & Hrun & _).
  exists results, st2. split; [exact Hrun|].
  rewrite (main_after_start int_of_str new_client ge sm client_start
             client_get_me client_disconnect console_input open_lines strip
             lower fuel environ args config st st0 st1 Hinit Hconnect).
  unfold Host.try_finally, dispatch, bulk_mode.
  rewrite Hmode, Hbulk, Hmessage, !truthy_Some, Hpath, Htext. simpl.
  unfold Host.bind at 1, Host.call.
  destruct (open_lines path (Host.world st1)) as [opened w2].
  simpl in Hopen, Hrun. subst opened.
  destruct (usernames_of strip lines) as [|u rest] eqn:Hus; [congruence|].
  unfold print, Host.bind, Host.emit, Host.lift, Host.ret. simpl.
  rewrite Hrun.
  destruct (failed results) as [|f fs] eqn:Hfailed; simpl;
    rewrite disconnect_returns by assumption; simpl;
    rewrite <- !app_assoc; reflexivity.
Qed.

(** X15.  Outside interactive mode, [main] returns exit code 1 without
    looking up or sending anything, and still disconnects, when the
    arguments give it nothing to send: bulk mode without a message (the
    file is then not even opened), a bulk file that does not exist, a bulk
    file with no username in it, or no bulk file and not both a username
    and a message. *)
Theorem main_exits_1_with_nothing_to_send (fuel : nat) (environ : Environ)
    (args : Args) (config : TelegramConfig) (st st0 st1 : Host.State World) :
  Host.lift (TelegramSender_init int_of_str new_client environ) st
  = (inr config, st0) ->
  connect client_start client_get_me config st0 = (inr tt, st1) ->
  arg_interactive args = false ->
  (forall w, fst (client_disconnect w) = inr tt) ->
  let opened :=
    fst (open_lines (text_of (arg_bulk args)) (Host.world st1)) in
  (truthy (arg_bulk args) = true /\ truthy (arg_message args) = false)
  \/ (truthy (arg_bulk args) = true /\ truthy (arg_message args) = true
      /\ opened = FileNotFoundError)
  \/ (truthy (arg_bulk args) = true /\ truthy (arg_message args) = true
      /\ exists lines, opened = Lines lines /\ usernames_of strip lines = [])
  \/ (truthy (arg_bulk args) = false
      /\ truthy (arg_username args) && truthy (arg_message args) = false) ->
  exists st' events,
    main int_of_str new_client ge sm client_start client_get_me
         client_disconnect console_input open_lines strip lower
         fuel environ args st = (inr (Some 1), st')
    /\ Host.trace st'
       = Host.trace st1 ++ events
         ++ [DisconnectCall; HostLog INFO DisconnectedRecord]
    /\ filter is_core events = []
    /\ (truthy (arg_message args) = false -> filter is_open events = []).
Proof.
  intros Hinit Hconnect Hmode Hdisc opened Hcase.
  rewrite (main_after_start int_of_str new_client ge sm client_start
             client_get_me client_disconnect console_input open_lines strip
             lower fuel environ args config st st0 st1 Hinit Hconnect).
  unfold Host.try_finally, dispatch, bulk_mode. rewrite Hmode.
  destruct Hcase as [(Hb & Hm) | [(Hb & Hm & Ho) | [(Hb & Hm & lines & Ho & Hn)
                    | (Hb & Hm)]]]; rewrite Hb, ?Hm; simpl.
  - unfold print, Host.bind, Host.emit, Host.ret. simpl.
    rewrite disconnect_returns by assumption.
    eexists _, [Print MessageRequiredForBulk]. simpl.
    rewrite <- app_assoc. auto.
  - unfold print, Host.bind, Host.emit, Host.ret, Host.call. subst opened.
    destruct (open_lines _ _) as [o w2]. simpl in Ho. subst o. simpl.
    rewrite disconnect_returns by assumption.
    eexists _, [OpenCall _; Print (FileNotFoundNotice _)]. simpl.
    rewrite <- !app_assoc. repeat split; trivial. congruence.
  - unfold print, Host.bind, Host.emit, Host.ret, Host.call. subst opened.
    destruct (open_lines _ _) as [o w2]. simpl in Ho. subst o. rewrite Hn.
    simpl. rewrite disconnect_returns by assumption.
    eexists _, [OpenCall _; Print NoUsernamesFound]. simpl.
    rewrite <- !app_assoc. repeat split; trivial. congruence.
  - unfold print, Host.bind, Host.emit, Host.ret. simpl.
    rewrite disconnect_returns by assumption.
    eexists _, [Print Help]. simpl. rewrite <- app_assoc. auto.
Qed.

(** X16.  In single mode (no bulk file, a username and a message), [main]
    makes one attempt on the username as given and returns exit code 0
    when [send_message] returned [True] and 1 when it returned [False];
    either way it prints the outcome and disconnects. *)
Theorem single_mode_exit_code (fuel : nat) (environ : Environ) (args : Args)
    (config : TelegramConfig) (username message : string)
    (st st0 st1 : Host.State World) :
  Host.lift (TelegramSender_init int_of_str new_client environ) st
  = (inr config, st0) ->
  connect client_start client_get_me config st0 = (inr tt, st1) ->
  arg_interactive args = false ->
  truthy (arg_bulk args) = false ->
  arg_username args = Some username -> nonempty username = true ->
  arg_message args = Some message -> nonempty message = true ->
  (forall w, fst (client_disconnect w) = inr tt) ->
  exists b st2,
    send_message ge sm username message (Py.mkState (Host.world st1) [])
    = (inr b, st2)
    /\ main int_of_str new_client ge sm client_start client_get_me
         client_disconnect console_input open_lines strip lower
         fuel environ args st
       = (inr (Some (if b then 0 else 1)),
          Host.mkState (snd (client_disconnect (Py.world st2)))
            (Host.trace st1
             ++ [Print (SendingTo (clean_username username))]
             ++ map Core (Py.trace st2)
             ++ [Print (if b then SentNotice else FailedNotice);
                 DisconnectCall; HostLog INFO DisconnectedRecord])).
Proof.
  intros Hinit Hconnect Hmode Hbulk Husername Hu Hmessage Hm Hdisc.
  destruct (send_message_shape ge sm username message
              (Py.mkState (Host.world st1) []))
    as (b & st2 & _ & _ & _ & Hsend & _).
  exists b, st2. split; [exact Hsend|].
  rewrite (main_after_start int_of_str new_client ge sm client_start
             client_get_me client_disconnect console_input open_lines strip
             lower fuel environ args config st st0 st1 Hinit Hconnect).
  unfold Host.try_finally, dispatch, single_mode.
  rewrite Hmode, Hbulk, Husername, Hmessage, !truthy_Some, Hu, Hm. simpl.
  unfold print, Host.bind, Host.emit, Host.lift, Host.ret. simpl.
  rewrite Hsend.
  destruct b; simpl; rewrite disconnect_returns by assumption; simpl;
    rewrite <- !app_assoc; reflexivity.
Qed.

(** X17.  In interactive mode, when the first line typed is, once
    stripped and lowered, [quit] or [exit], [main] returns exit code 0
    after that one prompt: it asks for no message, looks up and sends
    nothing, opens no file whatever the other arguments say, and
    disconnects. *)
Theorem interactive_quit_sends_nothing (fuel : nat) (environ : Environ)
    (args : Args) (config : TelegramConfig) (typed : string)
    (st st0 st1 : Host.State World) :
  Host.lift (TelegramSender_init int_of_str new_client environ) st
  = (inr config, st0) ->
  connect client_start client_get_me config st0 = (inr tt, st1) ->
  arg_interactive args = true ->
  fst (console_input UsernamePrompt (Host.world st1)) = Line typed ->
  lower (strip typed) = "quit" \/ lower (strip typed) = "exit" ->
  (forall w, fst (client_disconnect w) = inr tt) ->
  main int_of_str new_client ge sm client_start client_get_me
       client_disconnect console_input open_lines strip lower
       (S fuel) environ args st
  = (inr (Some 0),
     Host.mkState
       (snd (client_disconnect
               (snd (console_input UsernamePrompt (Host.world st1)))))
       (Host.trace st1
        ++ [Print InteractiveBanner; Print QuitHint; InputCall UsernamePrompt;
            DisconnectCall; HostLog INFO DisconnectedRecord])).
Proof.
  intros Hinit Hconnect Hmode Htyped Hquit Hdisc.
  rewrite (main_after_start int_of_str new_client ge sm client_start
             client_get_me client_disconnect console_input open_lines strip
             lower (S fuel) environ args config st st0 st1 Hinit Hconnect).
  unfold Host.try_finally, dispatch, interactive_mode. rewrite Hmode.
  simpl. unfold interactive_turn, with_input, print, Host.bind, Host.emit,
    Host.call, Host.ret. simpl.
  destruct (console_input UsernamePrompt (Host.world st1)) as [t w2].
  simpl in Htyped. subst t.
  assert (String.eqb (lower (strip typed)) "quit"
          || String.eqb (lower (strip typed)) "exit" = true) as ->.
  { destruct Hquit as [-> | ->]; reflexivity. }
  rewrite disconnect_returns by assumption. simpl.
  rewrite <- !app_assoc. reflexivity.
Qed.

Lemma turn_on_dead_input (st : Host.State World) :
  (forall prompt w, exists e, fst (console_input prompt w) = InputRaises e) ->
  exists e,
    interactive_turn ge sm console_input strip lower st
    = (inr Continue,
       Host.mkState (snd (console_input UsernamePrompt (Host.world st)))
         (Host.trace st ++ [InputCall UsernamePrompt; Print (ErrorNotice e)])).
Proof.
  intros Hdead. destruct (Hdead UsernamePrompt (Host.world st)) as (e & He).
  exists e. unfold interactive_turn, with_input, print, Host.bind, Host.emit,
    Host.call, Host.ret.
  destruct (console_input UsernamePrompt (Host.world st)) as [t w2].
  simpl in He. subst t. simpl. now rewrite <- app_assoc.
Qed.

Lemma loop_on_dead_input (fuel : nat) :
  (forall prompt w, exists e, fst (console_input prompt w) = InputRaises e) ->
  forall st : Host.State World,
  exists st' events,
    interactive_loop ge sm console_input strip lower fuel st = (inr None, st')
    /\ Host.trace st' = Host.trace st ++ events
    /\ filter is_core events = []
    /\ List.length (filter is_input events) = fuel.
Proof.
  intros Hdead. induction fuel as [|fuel IH]; intros st.
  - exists st, []. simpl. rewrite app_nil_r. auto.
  - destruct (turn_on_dead_input st Hdead) as (e & Hturn).
    simpl. unfold Host.bind at 1. rewrite Hturn.
    match goal with
    | |- context [interactive_loop _ _ _ _ _ fuel ?s] =>
        destruct (IH s) as (st' & evs & Hloop & Htr & Hcore & Hcount)
    end.
    exists st', (InputCall UsernamePrompt :: Print (ErrorNotice e) :: evs).
    rewrite Hloop, Htr. simpl. rewrite <- app_assoc, Hcore, Hcount. auto.
Qed.

(** X18.  When every [input] raises an exception, as it does at the end
    of the input, [interactive_mode] never ends: whatever the number of
    turns allowed, it uses them all, one prompt per turn, and looks up and
    sends nothing. *)
Theorem interactive_mode_never_ends_on_dead_input (fuel : nat)
    (st : Host.State World) :
  (forall prompt w, exists e, fst (console_input prompt w) = InputRaises e) ->
  exists st' events,
    interactive_mode ge sm console_input strip lower fuel st = (inr None, st')
    /\ Host.trace st' = Host.trace st ++ events
    /\ filter is_core events = []
    /\ List.length (filter is_input events) = fuel.
Proof.
  intros Hdead. unfold interactive_mode, print, Host.bind, Host.emit.
  match goal with
  | |- context [interactive_loop _ _ _ _ _ fuel ?s] =>
      destruct (loop_on_dead_input fuel Hdead s)
        as (st' & evs & Hloop & Htr & Hcore & Hcount)
  end.
  exists st', (Print InteractiveBanner :: Print QuitHint :: evs).
  rewrite Hloop, Htr. simpl. rewrite <- !app_assoc. auto.
Qed.

(** X19.  A turn of the interactive loop sends only when both lines are
    there: a username that is empty once stripped is answered with a
    notice, without asking for a message; a message that is empty once
    stripped is answered with a notice; either way nothing is looked up or
    sent and the loop goes on. *)
Theorem interactive_turn_skips_blank_input (typed : string)
    (st : Host.State World) :
  let asked := console_input UsernamePrompt (Host.world st) in
  fst asked = Line typed ->
  lower (strip typed) <> "quit" -> lower (strip typed) <> "exit" ->
  (strip typed = "" ->
   interactive_turn ge sm console_input strip lower st
   = (inr Continue,
      Host.mkState (snd asked)
        (Host.trace st ++ [InputCall UsernamePrompt; Print EnterValidUsername])))
  /\ (strip typed <> "" ->
      forall text,
        fst (console_input MessagePrompt (snd asked)) = Line text ->
        strip text = "" ->
        interactive_turn ge sm console_input strip lower st
        = (inr Continue,
           Host.mkState (snd (console_input MessagePrompt (snd asked)))
             (Host.trace st
              ++ [InputCall UsernamePrompt; InputCall MessagePrompt;
                  Print EnterAMessage]))).
Proof.
  intros asked Htyped Hquit Hexit.
  unfold interactive_turn, with_input, print, Host.bind, Host.emit,
    Host.call, Host.ret.
  fold asked. destruct asked as [t w2]. simpl in Htyped. subst t. simpl.
  destruct (String.eqb_spec (lower (strip typed)) "quit"); [contradiction|].
  destruct (String.eqb_spec (lower (strip typed)) "exit"); [contradiction|].
  simpl. split.
  - intros ->. simpl. now rewrite <- app_assoc.
  - intros Hname text Htext Hblank.
    destruct (strip typed) as [|c rest]; [contradiction|]. simpl.
    destruct (console_input MessagePrompt w2) as [t w3]. simpl in Htext.
    subst t. rewrite Hblank. simpl. now rewrite <- !app_assoc.
Qed.

(** What the dispatch can give: a raise, exit code 0 or 1, or, in
    interactive mode only, no end within the turns allowed. *)
Lemma dispatch_codes (fuel : nat) (args : Args) (st : Host.State World) :
  let r :=
    fst (dispatch ge sm console_input open_lines strip lower fuel args st) in
  (exists e, r = inl e)
  \/ r = inr (Some 0) \/ r = inr (Some 1)
  \/ (r = inr None /\ arg_interactive args = true).
Proof.
  unfold dispatch, interactive_mode, bulk_mode, single_mode, print,
    Host.bind, Host.emit, Host.call, Host.lift, Host.ret, Host.raise.
  destruct (arg_interactive args); simpl.
  - destruct (interactive_loop _ _ _ _ _ _ _) as [[e|[u|]] st']; simpl; eauto 6.
  - repeat first
      [ progress simpl
      | match goal with
        | |- context [match ?x with _ => _ end] => destruct x
        end ]; eauto 6.
Qed.

(** For a command line that parsed, the entry point never lets an
    exception out and ends with code 0 or code 1, or, in interactive mode
    only, does not end within the turns allowed. *)
Lemma entry_point_exit_codes (fuel : nat) (environ : Environ) (args : Args)
    (st : Host.State World) :
  let code :=
    fst (entry_point int_of_str new_client ge sm client_start client_get_me
           client_disconnect console_input open_lines strip lower
           fuel environ args st) in
  code = inr (Some 0) \/ code = inr (Some 1)
  \/ (code = inr None /\ arg_interactive args = true).
Proof.
  intros code. subst code.
  destruct (entry_point int_of_str new_client ge sm client_start client_get_me
              client_disconnect console_input open_lines strip lower
              fuel environ args st) as [code st'] eqn:Hrun.
  simpl. revert Hrun.
  unfold entry_point, main, Host.try_except at 1, Host.bind at 1.
  destruct (Host.try_except _ _ st) as [[e|[config|]] st1] eqn:Hstart; simpl.
  - exfalso. revert Hstart.
    unfold Host.try_except, Host.bind, host_logger, Host.emit, Host.ret.
    destruct (Host.lift _ st) as [[e0|config] st0]; simpl; [discriminate|].
    destruct (connect _ _ _ _) as [[e1|[]] st2]; simpl; discriminate.
  - unfold Host.try_finally.
    pose proof (dispatch_codes fuel args st1) as Hcodes. simpl in Hcodes.
    destruct (dispatch ge sm console_input open_lines strip lower fuel args st1)
      as [r st2]. simpl in Hcodes.
    destruct Hcodes as [(e & ->) | [-> | [-> | (-> & Hmode)]]]; simpl;
      try (intros Hrun; injection Hrun as <- <-; now auto);
      destruct (disconnect client_disconnect st2) as [[e'|[]] st3]; simpl;
      intros Hrun; injection Hrun as <- <-; auto.
  - intros Hrun. injection Hrun as <- <-. auto.
Qed.

(** The dispatch ends when the mode is not the interactive one. *)
Lemma dispatch_ends (fuel : nat) (args : Args) (st : Host.State World) :
  arg_interactive args = false ->
  fst (dispatch ge sm console_input open_lines strip lower fuel args st)
  <> inr None.
Proof.
  intros Hmode.
  destruct (dispatch_codes fuel args st)
    as [(e & Hr) | [Hr | [Hr | (Hr & Hm)]]]; simpl in *; congruence.
Qed.

(** X21.  When [disconnect] raises, the process ends with exit code 1 and
    an unexpected-error record for that exception, whatever the mode did
    before, a message sent with success included. *)
Theorem entry_point_exits_1_when_disconnect_fails (fuel : nat)
    (environ : Environ) (args : Args) (config : TelegramConfig)
    (e : PyException) (st st0 st1 : Host.State World) :
  Host.lift (TelegramSender_init int_of_str new_client environ) st
  = (inr config, st0) ->
  connect client_start client_get_me config st0 = (inr tt, st1) ->
  arg_interactive args = false ->
  (forall w, fst (client_disconnect w) = inl e) ->
  exists st' body,
    entry_point int_of_str new_client ge sm client_start client_get_me
      client_disconnect console_input open_lines strip lower
      fuel environ args st = (inr (Some 1), st')
    /\ Host.trace st'
       = Host.trace st1 ++ body
         ++ [DisconnectCall; HostLog ERROR (UnexpectedErrorRecord e)]
    /\ filter is_disconnect body = [].
Proof.
  intros Hinit Hconnect Hmode Hdisc.
  unfold entry_point, Host.try_except at 1.
  rewrite (main_after_start int_of_str new_client ge sm client_start
             client_get_me client_disconnect console_input open_lines strip
             lower fuel environ args config st st0 st1 Hinit Hconnect).
  pose proof (dispatch_ends fuel args st1 Hmode) as Hends.
  destruct (dispatch_never_disconnects ge sm console_input open_lines strip
              lower fuel args st1) as (body & Hbody & Hallowed).
  apply forallb_not_disconnect in Hallowed.
  unfold Host.try_finally.
  destruct (dispatch ge sm console_input open_lines strip lower fuel args st1)
    as [r st2]. simpl in Hends, Hbody.
  rewrite disconnect_run. specialize (Hdisc (Host.world st2)).
  destruct (client_disconnect (Host.world st2)) as [[e'|[]] w'];
    simpl in Hdisc; [|discriminate]. injection Hdisc as ->.
  exists (Host.mkState w'
            ((Host.trace st2 ++ [DisconnectCall])
             ++ [HostLog ERROR (UnexpectedErrorRecord e)])), body.
  split.
  - destruct r as [e0|[code|]]; [reflexivity|reflexivity|congruence].
  - simpl. rewrite Hbody, <- !app_assoc. auto.
Qed.


End CommandLineProperties.

(** ** The properties at concrete inputs *)

Lemma bulk_of_concatenation_witness :
  let st1 :=
    snd (send_bulk_messages Stub.lookup (Stub.deliver 1 30) ["alice"] "hi" 0
           Stub.start) in
  let st2 :=
    snd (send_bulk_messages Stub.lookup (Stub.deliver 1 30) ["alice"; "ghost"]
           "hi" 0 st1) in
  send_bulk_messages Stub.lookup (Stub.deliver 1 30) ["alice"] "hi" 0 Stub.start
  = (inr (mkResults ["alice"] [] 1), st1)
  /\ send_bulk_messages Stub.lookup (Stub.deliver 1 30) ["alice"; "ghost"] "hi" 0
       st1
     = (inr (mkResults [] ["alice"; "ghost"] 2), st2)
  /\ exists st',
       send_bulk_messages Stub.lookup (Stub.deliver 1 30)
         (["alice"] ++ ["alice"; "ghost"]) "hi" 0 Stub.start
       = (inr (mkResults ["alice"] ["alice"; "ghost"] 3), st')
       /\ Py.world st' = Py.world st2.
Proof.
  intros st1 st2.
  split; [reflexivity|]. split; [reflexivity|].
  exact (bulk_of_concatenation Stub.lookup (Stub.deliver 1 30)
           ["alice"] ["alice"; "ghost"] "hi" 0 Stub.start st1 st2
           (mkResults ["alice"] [] 1) (mkResults [] ["alice"; "ghost"] 2)
           eq_refl eq_refl).
Defined.

Lemma stub_credentials_present :
  forall name, In name required_credentials ->
               truthy (StubHost.environ name) = true.
Proof.
  intros name [<-|[<-|[<-|[]]]]; reflexivity.
Defined.

Lemma TelegramSender_init_builds_client_witness :
  (forall name, In name required_credentials ->
                truthy (StubHost.environ name) = true)
  /\ StubHost.environ "API_ID" = Some "12345"
  /\ Stub.int_of_str "12345" = Some 12345
  /\ TelegramSender_init Stub.int_of_str Stub.new_client StubHost.environ
       Stub.start
     = (inr StubHost.config,
        Py.mkState 0%nat [NewClient "telegram_session" 12345 (Some "abcdef")]).
Proof.
  split; [exact stub_credentials_present|].
  split; [reflexivity|]. split; [reflexivity|].
  exact (proj1 (TelegramSender_init_builds_client Stub.int_of_str
                  Stub.new_client StubHost.environ "12345" 12345 Stub.start
                  stub_credentials_present eq_refl eq_refl) eq_refl).
Defined.

Lemma main_exits_1_on_missing_credentials_witness :
  (exists name,
     In name required_credentials
     /\ truthy (Stub.environ_of (Some "12345") None (Some "+100") name) = false)
  /\ main Stub.int_of_str StubHost.new_client StubHost.lookup
       (StubHost.deliver 10 30) StubHost.start_ok StubHost.get_me
       StubHost.disconnect_ok StubHost.input StubHost.open_lines
       StubHost.strip StubHost.lower 5
       (Stub.environ_of (Some "12345") None (Some "+100"))
       (mkArgs (Some "alice") (Some "hi") false None 1) (StubHost.boot [])
     = (inr (Some 1),
        Host.mkState (StubHost.mkWorld 0 [])
          [Core (Log ERROR
                   (InitFailedRecord
                      (ValueError (missing_message ["API_HASH"]))));
           HostLog ERROR
             (InitializeFailedRecord
                (ValueError (missing_message ["API_HASH"])))]).
Proof.
  assert (exists name,
            In name required_credentials
            /\ truthy (Stub.environ_of (Some "12345") None (Some "+100") name)
               = false) as Hmissing.
  { exists "API_HASH". split; [simpl; auto|reflexivity]. }
  split; [exact Hmissing|].
  exact (main_exits_1_on_missing_credentials Stub.int_of_str
           StubHost.new_client StubHost.lookup (StubHost.deliver 10 30)
           StubHost.start_ok StubHost.get_me StubHost.disconnect_ok
           StubHost.input StubHost.open_lines StubHost.strip StubHost.lower 5
           (Stub.environ_of (Some "12345") None (Some "+100"))
           (mkArgs (Some "alice") (Some "hi") false None 1) (StubHost.boot [])
           Hmissing).
Defined.

Lemma main_exits_1_when_connect_fails_witness :
  Host.lift (TelegramSender_init Stub.int_of_str StubHost.new_client
               StubHost.environ) (StubHost.boot [])
  = (inr StubHost.config, StubHost.built [])
  /\ fst (StubHost.start_refused (get_phone_number StubHost.config)
            (Host.world (StubHost.built [])))
     = inl (OtherError "connection refused")
  /\ main Stub.int_of_str StubHost.new_client StubHost.lookup
       (StubHost.deliver 10 30) StubHost.start_refused StubHost.get_me
       StubHost.disconnect_ok StubHost.input StubHost.open_lines
       StubHost.strip StubHost.lower 5 StubHost.environ
       (mkArgs (Some "alice") (Some "hi") false None 1) (StubHost.boot [])
     = (inr (Some 1),
        Host.mkState (StubHost.mkWorld 0 [])
          [Core (NewClient "telegram_session" 12345 (Some "abcdef"));
           StartCall (Some "+100");
           HostLog ERROR (ConnectFailedRecord (OtherError "connection refused"));
           HostLog ERROR
             (InitializeFailedRecord (OtherError "connection refused"))]).
Proof.
  split; [reflexivity|]. split; [reflexivity|].
  exact (main_exits_1_when_connect_fails Stub.int_of_str StubHost.new_client
           StubHost.lookup (StubHost.deliver 10 30) StubHost.start_refused
           StubHost.get_me StubHost.disconnect_ok StubHost.input
           StubHost.open_lines StubHost.strip StubHost.lower 5 StubHost.environ
           (mkArgs (Some "alice") (Some "hi") false None 1) StubHost.config
           (OtherError "connection refused") (StubHost.boot [])
           (StubHost.built []) eq_refl eq_refl).
Defined.

Lemma stub_start :
  Host.lift (TelegramSender_init Stub.int_of_str StubHost.new_client
               StubHost.environ) (StubHost.boot [])
  = (inr StubHost.config, StubHost.built [])
  /\ connect StubHost.start_ok StubHost.get_me StubHost.config
       (StubHost.built [])
     = (inr tt, StubHost.connected []).
Proof. split; reflexivity. Defined.

Lemma stub_disconnects :
  forall w, fst (StubHost.disconnect_ok w) = inr tt.
Proof. intros w. reflexivity. Defined.

Lemma main_disconnects_last_witness :
  let args := mkArgs (Some "@alice") (Some "hi") false None 1 in
  let run :=
    main Stub.int_of_str StubHost.new_client StubHost.lookup
      (StubHost.deliver 10 30) StubHost.start_ok StubHost.get_me
      StubHost.disconnect_ok StubHost.input StubHost.open_lines
      StubHost.strip StubHost.lower 5 StubHost.environ args (StubHost.boot []) in
  run = (inr (Some 0), snd run)
  /\ inr (Some 0) <> (inr None : Py.Outcome (option Z))
  /\ exists body closing,
       Host.trace (snd run)
       = Host.trace (StubHost.connected []) ++ body ++ DisconnectCall :: closing
       /\ filter is_disconnect body = []
       /\ (closing = [] \/ closing = [HostLog INFO DisconnectedRecord]).
Proof.
  intros args run.
  assert (inr (Some 0) <> (inr None : Py.Outcome (option Z))) as Hends
    by discriminate.
  split; [reflexivity|]. split; [exact Hends|].
  exact (main_disconnects_last Stub.int_of_str StubHost.new_client
           StubHost.lookup (StubHost.deliver 10 30) StubHost.start_ok
           StubHost.get_me StubHost.disconnect_ok StubHost.input
           StubHost.open_lines StubHost.strip StubHost.lower 5 StubHost.environ
           args StubHost.config (StubHost.boot []) (StubHost.built [])
           (StubHost.connected []) (snd run) (inr (Some 0))
           (proj1 stub_start) (proj2 stub_start) eq_refl Hends).
Defined.

Lemma bulk_mode_exits_0_whatever_failed_witness :
  let args := mkArgs (Some "anyone") (Some "hi") false (Some "users.txt") 0 in
  usernames_of StubHost.strip StubHost.users_file = ["alice"; "@ghost"]
  /\ exists results st2,
       send_bulk_messages StubHost.lookup (StubHost.deliver 0 30)
         ["alice"; "@ghost"] "hi" 0 (Py.mkState (StubHost.mkWorld 0 []) [])
       = (inr results, st2)
       /\ successful results = []
       /\ fst (main Stub.int_of_str StubHost.new_client StubHost.lookup
                 (StubHost.deliver 0 30) StubHost.start_ok StubHost.get_me
                 StubHost.disconnect_ok StubHost.input StubHost.open_lines
                 StubHost.strip StubHost.lower 5 StubHost.environ args
                 (StubHost.boot []))
          = inr (Some 0).
Proof.
  intros args.
  assert (usernames_of StubHost.strip StubHost.users_file <> []) as Hnames
    by discriminate.
  split; [reflexivity|].
  destruct (bulk_mode_exits_0_whatever_failed Stub.int_of_str
              StubHost.new_client StubHost.lookup (StubHost.deliver 0 30)
              StubHost.start_ok StubHost.get_me StubHost.disconnect_ok
              StubHost.input StubHost.open_lines StubHost.strip StubHost.lower
              5 StubHost.environ args StubHost.config "users.txt" "hi"
              StubHost.users_file (StubHost.boot []) (StubHost.built [])
              (StubHost.connected []) (proj1 stub_start) (proj2 stub_start)
              eq_refl eq_refl eq_refl eq_refl eq_refl float_limit_positive
              eq_refl Hnames stub_disconnects)
    as (results & st2 & Hrun & Hmain).
  exists results, st2. split; [exact Hrun|]. split.
  - vm_compute in Hrun. injection Hrun as <- _. reflexivity.
  - rewrite Hmain. reflexivity.
Defined.

Lemma main_exits_1_with_nothing_to_send_witness :
  let args := mkArgs (Some "alice") None false (Some "users.txt") 1 in
  (truthy (arg_bulk args) = true /\ truthy (arg_message args) = false)
  /\ exists st' events,
       main Stub.int_of_str StubHost.new_client StubHost.lookup
         (StubHost.deliver 10 30) StubHost.start_ok StubHost.get_me
         StubHost.disconnect_ok StubHost.input StubHost.open_lines
         StubHost.strip StubHost.lower 5 StubHost.environ args
         (StubHost.boot [])
       = (inr (Some 1), st')
       /\ Host.trace st'
          = Host.trace (StubHost.connected []) ++ events
            ++ [DisconnectCall; HostLog INFO DisconnectedRecord]
       /\ filter is_core events = []
       /\ (truthy (arg_message args) = false -> filter is_open events = []).
Proof.
  intros args.
  assert (truthy (arg_bulk args) = true /\ truthy (arg_message args) = false)
    as Hcase by (split; reflexivity).
  split; [exact Hcase|].
  exact (main_exits_1_with_nothing_to_send Stub.int_of_str StubHost.new_client
           StubHost.lookup (StubHost.deliver 10 30) StubHost.start_ok
           StubHost.get_me StubHost.disconnect_ok StubHost.input
           StubHost.open_lines StubHost.strip StubHost.lower 5 StubHost.environ
           args StubHost.config (StubHost.boot []) (StubHost.built [])
           (StubHost.connected []) (proj1 stub_start) (proj2 stub_start)
           eq_refl stub_disconnects (or_introl Hcase)).
Defined.

Lemma single_mode_exit_code_witness :
  let args := mkArgs (Some "@news") (Some "hi") false None 1 in
  exists b st2,
    send_message StubHost.lookup (StubHost.deliver 10 30) "@news" "hi"
      (Py.mkState (StubHost.mkWorld 0 []) [])
    = (inr b, st2)
    /\ b = false
    /\ fst (main Stub.int_of_str StubHost.new_client StubHost.lookup
              (StubHost.deliver 10 30) StubHost.start_ok StubHost.get_me
              StubHost.disconnect_ok StubHost.input StubHost.open_lines
              StubHost.strip StubHost.lower 5 StubHost.environ args
              (StubHost.boot []))
       = inr (Some 1).
Proof.
  intros args.
  destruct (single_mode_exit_code Stub.int_of_str StubHost.new_client
              StubHost.lookup (StubHost.deliver 10 30) StubHost.start_ok
              StubHost.get_me StubHost.disconnect_ok StubHost.input
              StubHost.open_lines StubHost.strip StubHost.lower 5
              StubHost.environ args StubHost.config "@news" "hi"
              (StubHost.boot []) (StubHost.built []) (StubHost.connected [])
              (proj1 stub_start) (proj2 stub_start)
              eq_refl eq_refl eq_refl eq_refl eq_refl eq_refl stub_disconnects)
    as (b & st2 & Hsend & Hmain).
  exists b, st2. split; [exact Hsend|].
  assert (b = false) as Hb by (vm_compute in Hsend; congruence).
  split; [exact Hb|]. rewrite Hmain, Hb. reflexivity.
Defined.

Lemma interactive_quit_sends_nothing_witness :
  let args := mkArgs (Some "alice") (Some "hi") true (Some "users.txt") 1 in
  fst (StubHost.input UsernamePrompt
         (Host.world (StubHost.connected [Line " QUIT"])))
  = Line " QUIT"
  /\ (StubHost.lower (StubHost.strip " QUIT") = "quit"
      \/ StubHost.lower (StubHost.strip " QUIT") = "exit")
  /\ main Stub.int_of_str StubHost.new_client StubHost.lookup
       (StubHost.deliver 10 30) StubHost.start_ok StubHost.get_me
       StubHost.disconnect_ok StubHost.input StubHost.open_lines
       StubHost.strip StubHost.lower 1 StubHost.environ args
       (StubHost.boot [Line " QUIT"])
     = (inr (Some 0),
        Host.mkState (StubHost.mkWorld 0 [])
          (StubHost.started
           ++ [Print InteractiveBanner; Print QuitHint;
               InputCall UsernamePrompt;
               DisconnectCall; HostLog INFO DisconnectedRecord])).
Proof.
  intros args.
  assert (StubHost.lower (StubHost.strip " QUIT") = "quit"
          \/ StubHost.lower (StubHost.strip " QUIT") = "exit") as Hquit
    by (left; reflexivity).
  split; [reflexivity|]. split; [exact Hquit|].
  exact (interactive_quit_sends_nothing Stub.int_of_str StubHost.new_client
           StubHost.lookup (StubHost.deliver 10 30) StubHost.start_ok
           StubHost.get_me StubHost.disconnect_ok StubHost.input
           StubHost.open_lines StubHost.strip StubHost.lower 0 StubHost.environ
           args StubHost.config " QUIT" (StubHost.boot [Line " QUIT"])
           (StubHost.built [Line " QUIT"]) (StubHost.connected [Line " QUIT"])
           eq_refl eq_refl eq_refl eq_refl Hquit stub_disconnects).
Defined.

Lemma stub_input_dead :
  forall (prompt : Prompt) (w : StubHost.World),
  exists e, fst (StubHost.dead_input prompt w) = InputRaises e.
Proof. intros prompt w. eexists. reflexivity. Defined.

Lemma interactive_mode_never_ends_on_dead_input_witness :
  (forall (prompt : Prompt) (w : StubHost.World),
   exists e, fst (StubHost.dead_input prompt w) = InputRaises e)
  /\ exists st' events,
       interactive_mode StubHost.lookup (StubHost.deliver 10 30)
         StubHost.dead_input StubHost.strip StubHost.lower 1000
         (StubHost.connected [])
       = (inr None, st')
       /\ Host.trace st' = Host.trace (StubHost.connected []) ++ events
       /\ filter is_core events = []
       /\ List.length (filter is_input events) = 1000%nat.
Proof.
  split; [exact stub_input_dead|].
  exact (interactive_mode_never_ends_on_dead_input StubHost.lookup
           (StubHost.deliver 10 30) StubHost.dead_input StubHost.strip
           StubHost.lower 1000 (StubHost.connected []) stub_input_dead).
Defined.

Lemma interactive_turn_skips_blank_input_witness :
  let st := StubHost.connected [Line "  "; Line "bob"] in
  fst (StubHost.input UsernamePrompt (Host.world st)) = Line "  "
  /\ StubHost.lower (StubHost.strip "  ") <> "quit"
  /\ StubHost.lower (StubHost.strip "  ") <> "exit"
  /\ StubHost.strip "  " = ""
  /\ interactive_turn StubHost.lookup (StubHost.deliver 10 30) StubHost.input
       StubHost.strip StubHost.lower st
     = (inr Continue,
        Host.mkState (StubHost.mkWorld 0 [Line "bob"])
          (StubHost.started
           ++ [InputCall UsernamePrompt; Print EnterValidUsername])).
Proof.
  intros st.
  assert (StubHost.lower (StubHost.strip "  ") <> "quit") as Hquit
    by discriminate.
  assert (StubHost.lower (StubHost.strip "  ") <> "exit") as Hexit
    by discriminate.
  split; [reflexivity|]. split; [exact Hquit|]. split; [exact Hexit|].
  split; [reflexivity|].
  exact (proj1 (interactive_turn_skips_blank_input StubHost.lookup
                  (StubHost.deliver 10 30) StubHost.input StubHost.strip
                  StubHost.lower "  " st eq_refl Hquit Hexit) eq_refl).
Defined.

Lemma stub_disconnect_lost :
  forall w, fst (StubHost.disconnect_lost w) = inl (OtherError "connection lost").
Proof. intros w. reflexivity. Defined.

Lemma entry_point_exits_1_when_disconnect_fails_witness :
  let args := mkArgs (Some "alice") (Some "hi") false None 1 in
  exists st' body,
    entry_point Stub.int_of_str StubHost.new_client StubHost.lookup
      (StubHost.deliver 10 30) StubHost.start_ok StubHost.get_me
      StubHost.disconnect_lost StubHost.input StubHost.open_lines
      StubHost.strip StubHost.lower 5 StubHost.environ args (StubHost.boot [])
    = (inr (Some 1), st')
    /\ Host.trace st'
       = Host.trace (StubHost.connected []) ++ body
         ++ [DisconnectCall;
             HostLog ERROR (UnexpectedErrorRecord (OtherError "connection lost"))]
    /\ filter is_disconnect body = [].
Proof.
  intros args.
  exact (entry_point_exits_1_when_disconnect_fails Stub.int_of_str
           StubHost.new_client StubHost.lookup (StubHost.deliver 10 30)
           StubHost.start_ok StubHost.get_me StubHost.disconnect_lost
           StubHost.input StubHost.open_lines StubHost.strip StubHost.lower 5
           StubHost.environ args StubHost.config
           (OtherError "connection lost") (StubHost.boot [])
           (StubHost.built []) (StubHost.connected [])
           (proj1 stub_start) (proj2 stub_start) eq_refl stub_disconnect_lost).
Defined.

Example entry_point_after_sent_message :
  entry_point Stub.int_of_str StubHost.new_client StubHost.lookup
    (StubHost.deliver 10 30) StubHost.start_ok StubHost.get_me
    StubHost.disconnect_lost StubHost.input StubHost.open_lines
    StubHost.strip StubHost.lower 5 StubHost.environ
    (mkArgs (Some "alice") (Some "hi") false None 1) (StubHost.boot [])
  = (inr (Some 1),
     Host.mkState (StubHost.mkWorld 1 [])
       (StubHost.started
        ++ [ Print (SendingTo "alice");
             Core (GetEntityCall "alice");
             Core (SendMessageCall (User 1) "hi");
             Core (Log INFO (SentRecord "alice"));
             Print SentNotice;
             DisconnectCall;
             HostLog ERROR (UnexpectedErrorRecord (OtherError "connection lost")) ])).
Proof. reflexivity. Qed.
